(** * qri core: request handlers, history walk and pagination

    A shallow embedding of the [core] package of qri (dataset, history
    and pagination requests) together with the [repo.Repo] interface it
    is written against, and the properties of the handlers. *)

From Stdlib Require Import ZArith String Ascii List Bool Lia.
Import ListNotations.

Set Implicit Arguments.

Local Open Scope string_scope.
Local Open Scope Z_scope.

(** ** Go primitives *)

Module Go.

(** Go's [int] on the 64-bit targets qri is built for: two's complement,
      arithmetic wraps around silently. *)
Definition MinInt : Z := - 2 ^ 63.
Definition MaxInt : Z := 2 ^ 63 - 1.

Definition is_int (z : Z) : Prop := MinInt <= z <= MaxInt.

Definition wrap (z : Z) : Z := (z + 2 ^ 63) mod 2 ^ 64 - 2 ^ 63.

Definition add (a b : Z) : Z := wrap (a + b).
Definition sub (a b : Z) : Z := wrap (a - b).
Definition mul (a b : Z) : Z := wrap (a * b).
(** [a / b] truncates toward zero. *)
Definition quo (a b : Z) : Z := wrap (Z.quot a b).

(** [len(s)] of a string, as an [int]. *)
Definition len (s : string) : Z := Z.of_nat (String.length s).

(** ** package [strings] *)

Definition rev (s : string) : string :=
    string_of_list_ascii (List.rev (list_ascii_of_string s)).

Definition HasPrefix (s p : string) : bool := String.prefix p s.

Definition HasSuffix (s suffix : string) : bool :=
    String.prefix (rev suffix) (rev s).

Definition TrimSuffix (s suffix : string) : string :=
    if HasSuffix s suffix
    then String.substring 0 (String.length s - String.length suffix) s
    else s.

Definition Contains (s substr : string) : bool :=
    match String.index 0 substr s with
    | Some _ => true
    | None => match substr with EmptyString => true | _ => false end
    end.

Fixpoint TrimLeft1 (s : string) (c : ascii) : string :=
    match s with
    | String a s' => if Ascii.eqb a c then TrimLeft1 s' c else s
    | EmptyString => EmptyString
    end.

(** [strings.Trim(s, cutset)] for a cutset of one character. *)
Definition Trim1 (s : string) (c : ascii) : string :=
    rev (TrimLeft1 (rev (TrimLeft1 s c)) c).

(** ** package [path/filepath] *)

Fixpoint Ext_scan (r acc : string) : string :=
  match r with
  | EmptyString => EmptyString
  | String c r' =>
    if Ascii.eqb c "."%char then String c acc
    else if Ascii.eqb c "/"%char then EmptyString
    else Ext_scan r' (String c acc)
  end.

(** [filepath.Ext]: the suffix starting at the last dot of the last
    element of the path, empty when there is no dot. *)
Definition Ext (path : string) : string := Ext_scan (rev path) EmptyString.

End Go.

(** ** Errors

    Go errors are values compared by identity; the sentinels of package
    [repo] are kept apart from errors made on the spot by [fmt.Errorf]. *)

Inductive error : Type :=
| ErrNotFound
| ErrNameRequired
| ErrNameTaken
| ErrRepoEmpty
| Errorf (msg : string).

Definition Error (e : error) : string :=
  match e with
  | ErrNotFound => "repo: not found"
  | ErrNameRequired => "repo: name is required"
  | ErrNameTaken => "repo: name already in use"
  | ErrRepoEmpty => "repo: this repo contains no datasets"
  | Errorf msg => msg
  end.

Definition error_eqb (a b : error) : bool :=
  match a, b with
  | ErrNotFound, ErrNotFound => true
  | ErrNameRequired, ErrNameRequired => true
  | ErrNameTaken, ErrNameTaken => true
  | ErrRepoEmpty, ErrRepoEmpty => true
  | Errorf m, Errorf n => String.eqb m n
  | _, _ => false
  end.

(** ** core/params.go *)

Module Params.

Definition DefaultPageSize : Z := 100.

Record ListParams : Type := mkListParams {
    OrderBy : string;
    Limit : Z;
    Offset : Z
  }.

(** [NewListParams]: pages are 1-indexed.  The [orderBy] argument is not
      copied into the result. *)
Definition NewListParams (orderBy : string) (page pageSize : Z) : ListParams :=
    let page := if page <? 1 then 1 else page in
    let pageSize := if pageSize <=? 0 then DefaultPageSize else pageSize in
    {| OrderBy := "";
       Limit := pageSize;
       Offset := Go.mul (Go.sub page 1) pageSize |}.

(** The two locals of [ListParams.Page]. *)
Definition Page_size (lp : ListParams) : Z :=
    if Limit lp <=? 0 then DefaultPageSize else Limit lp.

Definition Page_number (lp : ListParams) : Z :=
    Go.add (Go.quo (Offset lp) (Page_size lp)) 1.

(** [ListParams.Page]; [util.NewPage] belongs to the apiutil package and
      is taken as given. *)
Definition Page {UtilPage : Type} (NewPage : Z -> Z -> UtilPage)
             (lp : ListParams) : UtilPage :=
    NewPage (Page_number lp) (Page_size lp).

End Params.

(** ** Data model *)

(** [datastore.Key]: a string wrapper; the zero key prints as the empty
    string. *)
Definition Key : Type := string.
Definition Key_String (k : Key) : string := k.

(** An [io.Reader] as what reading it to the end gives. *)
Record Reader : Type := mkReader {
  content : string;
  readErr : option error
}.

Definition ReadAll (r : Reader) : string * option error :=
  (content r, readErr r).

(** The reader once it has been read to the end. *)
Definition drained (r : Reader) : Reader :=
  {| content := ""; readErr := None |}.

(** [cafs.File] as built by package memfs. *)
Record File : Type := mkFile {
  FileName : string;
  FileBytes : string
}.

Definition NewMemfileBytes (name : string) (data : string) : File :=
  {| FileName := name; FileBytes := data |}.

Definition NewMemfileReader (name : string) (r : Reader) : File :=
  {| FileName := name; FileBytes := content r |}.

(** Types of the dataset package that the handlers only pass around. *)
Class Types : Type := {
  Time : Type;
  zeroTime : Time;
  Structure : Type;
  DataFormat : Type
}.

(** ** The body of a method

    A statement either goes on with a value, makes the method return an
    error, or panics.  The state reached so far is kept in every case:
    nothing is rolled back when a method returns an error. *)
Inductive step (A : Type) : Type :=
| Next (a : A)
| Fail (e : error)
| Panic (msg : string).
Arguments Fail {A} e.
Arguments Panic {A} msg.

(** What a caller of a method [func (p *P, res *R) error] sees: the value
    behind [res] and the error, or a panic. *)
Inductive call (R : Type) : Type :=
| Returned (reply : R) (err : option error)
| Panicked (msg : string).
Arguments Panicked {R} msg.

Section DataModel.
Context {T : Types}.

(** [dataset.Dataset], the fields the handlers read or write. *)
Record Dataset : Type := mkDataset {
  ds_Title : string;
  ds_DownloadURL : string;
  ds_AccrualPeriodicity : string;
  ds_Timestamp : Time;
  ds_Data : string;
  ds_Length : Z;
  ds_Previous : Key;
  ds_Structure : option Structure
}.

Definition zeroDataset : Dataset :=
  {| ds_Title := ""; ds_DownloadURL := ""; ds_AccrualPeriodicity := "";
     ds_Timestamp := zeroTime; ds_Data := ""; ds_Length := 0;
     ds_Previous := ""; ds_Structure := None |}.

(** [repo.DatasetRef] *)
Record DatasetRef : Type := mkDatasetRef {
  ref_Name : string;
  ref_Path : Key;
  ref_Dataset : option Dataset
}.

Definition zeroDatasetRef : DatasetRef :=
  {| ref_Name := ""; ref_Path := ""; ref_Dataset := None |}.

Record GetDatasetParams : Type := mkGetDatasetParams {
  gp_Path : Key;
  gp_Name : string;
  gp_Hash : string
}.

Record InitDatasetParams : Type := mkInitDatasetParams {
  ip_Name : string;
  ip_URL : string;
  ip_DataFilename : string;
  ip_Data : option Reader;
  ip_MetadataFilename : string;
  ip_Metadata : option Reader
}.

Record UpdateParams : Type := mkUpdateParams {
  up_Changes : Dataset;
  up_DataFilename : string;
  up_Data : option Reader
}.

Record RenameParams : Type := mkRenameParams {
  rp_Current : string;
  rp_New : string
}.

Record DeleteParams : Type := mkDeleteParams {
  dp_Path : Key;
  dp_Name : string
}.

Record LogParams : Type := mkLogParams {
  lp_ListParams : Params.ListParams;
  lp_Path : Key
}.

(** ** Imported packages

    Functions of go-datastore and of the dataset packages (dsfs, detect,
    validate), which live outside this repository.  A Go result
    [(T, error)] of a value type is a pair; a result that returns a
    pointer with an error is a sum, the pointer being valid exactly when
    the error is nil. *)
Class Libs : Type := {
  NewKey : string -> Key;
  RefType : string -> string * string;
  PackageFileDataset : string;
  ValidName : string -> option error;
  ExtensionDataFormat : string -> DataFormat * option error;
  validate_DataFormat : DataFormat -> string -> option error;
  FromReader : string -> string -> Structure + error;
  validate_Structure : Structure -> option error;
  validate_Dataset : Dataset -> option error;
  Camelize : string -> string;
  DataFormat_String : DataFormat -> string;
  Structure_Format : Structure -> DataFormat;
  zeroStructure : Structure;
  Structure_Assign : Structure -> list Structure -> Structure;
  Dataset_Assign : Dataset -> list Dataset -> Dataset;
  json_Decode : Reader -> Dataset -> Dataset * option error;
  filepath_Base : string -> string
}.

(** ** repo/repo.go: the repository interface

    The interface is a bundle of narrow stores.  Each store owns its
    state: [NS] for the Namestore, [DS] for the Datasets store, [FS] for
    the content-addressed filestore behind [Store()], and [OS] for what
    lies outside the process (network, clock, the peer at the other end
    of an rpc client).  Lookups in the Namestore and in the Datasets store
    are queries; loads from the filestore may change it, which is what a
    retry of a load observes. *)
Class Backend : Type := {
  NS : Type;
  DS : Type;
  FS : Type;
  OS : Type;
  Client : Type;
  (* repo.Namestore *)
  PutName : string -> Key -> NS -> option error * NS;
  GetPath : string -> NS -> Key * option error;
  GetName : Key -> NS -> string * option error;
  DeleteName : string -> NS -> option error * NS;
  Namespace : Z -> Z -> NS -> FS -> (list DatasetRef * option error) * FS;
  (* repo.Datasets *)
  PutDataset : Key -> Dataset -> DS -> option error * DS;
  GetDataset : Key -> DS -> Dataset + error;
  (* repo.HasPath *)
  HasPath : Key -> NS -> DS -> FS -> bool * option error;
  (* cafs.Filestore, and cafs.Pinner when the store implements it *)
  Put : File -> bool -> FS -> (Key * option error) * FS;
  Unpin : option (Key -> bool -> FS -> option error * FS);
  (* dsfs *)
  LoadDataset : Key -> FS -> (Dataset + error) * FS;
  SaveDataset : Dataset -> bool -> FS -> (Key * option error) * FS;
  (* net/http, time, net/rpc *)
  http_Get : string -> OS -> (Reader + error) * OS;
  time_Now : OS -> Time * OS;
  rpc_Call : forall P R : Type,
      Client -> string -> P -> R -> OS -> (R * option error) * OS
}.

Context {L : Libs} {B : Backend}.

Record World : Type := mkWorld {
  names : NS;
  datasets : DS;
  store : FS;
  outside : OS
}.

Definition set_names (ns : NS) (w : World) : World :=
  {| names := ns; datasets := datasets w; store := store w; outside := outside w |}.
Definition set_datasets (ds : DS) (w : World) : World :=
  {| names := names w; datasets := ds; store := store w; outside := outside w |}.
Definition set_store (fs : FS) (w : World) : World :=
  {| names := names w; datasets := datasets w; store := fs; outside := outside w |}.
Definition set_outside (o : OS) (w : World) : World :=
  {| names := names w; datasets := datasets w; store := store w; outside := o |}.


Definition M (A : Type) : Type := World -> step A * World.

Definition ret {A : Type} (a : A) : M A := fun w => (Next a, w).
Definition fail {A : Type} (e : error) : M A := fun w => (Fail e, w).
Definition panic {A : Type} (msg : string) : M A := fun w => (Panic msg, w).

Definition bind {A C : Type} (m : M A) (k : A -> M C) : M C :=
  fun w =>
    match m w with
    | (Next a, w') => k a w'
    | (Fail e, w') => (Fail e, w')
    | (Panic msg, w') => (Panic msg, w')
    end.


(** [*res] is assigned only on the path that returns nil. *)
Definition exec {R : Type} (m : M R) (res : R) (w : World) : call R * World :=
  match m w with
  | (Next r, w') => (Returned r None, w')
  | (Fail e, w') => (Returned res (Some e), w')
  | (Panic msg, w') => (Panicked msg, w')
  end.

(** [cli.Call(serviceMethod, p, res)] *)
Definition remote {P R : Type} (c : Client) (serviceMethod : string)
           (p : P) (res : R) (w : World) : call R * World :=
  let '(r, err, o) := rpc_Call c serviceMethod p res (outside w) in
  (Returned r err, set_outside o w).

End DataModel.

Declare Scope go_scope.
Delimit Scope go_scope with go.
Notation "x <- m ;; k" := (bind m (fun x => k))
  (at level 61, m at next level, right associativity) : go_scope.
Notation "m ;;; k" := (bind m (fun _ => k))
  (at level 61, right associativity) : go_scope.

(** ** The request handlers (package core) *)

Section Handlers.
Context {T : Types} {L : Libs} {B : Backend}.
Local Open Scope go_scope.

(** A non-nil [repo.Repo]: the repository whose stores the world holds. *)
Inductive RepoRef : Type := LocalRepo.

Definition nilDeref : string :=
  "runtime error: invalid memory address or nil pointer dereference".

(** A use of the handler's [repo] field. *)
Definition useRepo (r : option RepoRef) : M unit :=
  match r with
  | Some _ => ret tt
  | None => panic nilDeref
  end.

(** [if err != nil { return fmt.Errorf(prefix + "%s", err.Error()) }] *)
Definition check (err : option error) (prefix : string) : M unit :=
  match err with
  | Some e => fail (Errorf (prefix ++ Error e))
  | None => ret tt
  end.

(** [if err != nil { return err }] *)
Definition checkRaw (err : option error) : M unit :=
  match err with
  | Some e => fail e
  | None => ret tt
  end.

Definition try {A : Type} (r : A * option error) (prefix : string) : M A :=
  check (snd r) prefix ;;; ret (fst r).

Definition tryPtr {A : Type} (r : A + error) (prefix : string) : M A :=
  match r with
  | inl a => ret a
  | inr e => fail (Errorf (prefix ++ Error e))
  end.

(** The calls into the repository, on the part of the world they touch. *)
Definition putName (name : string) (path : Key) : M (option error) :=
  fun w => (Next (fst (PutName name path (names w))),
            set_names (snd (PutName name path (names w))) w).
Definition deleteName (name : string) : M (option error) :=
  fun w => (Next (fst (DeleteName name (names w))),
            set_names (snd (DeleteName name (names w))) w).
Definition getPath (name : string) : M (Key * option error) :=
  fun w => (Next (GetPath name (names w)), w).
Definition getName (path : Key) : M (string * option error) :=
  fun w => (Next (GetName path (names w)), w).
Definition namespace (limit offset : Z) : M (list DatasetRef * option error) :=
  fun w => (Next (fst (Namespace limit offset (names w) (store w))),
            set_store (snd (Namespace limit offset (names w) (store w))) w).
Definition putDataset (path : Key) (ds : Dataset) : M (option error) :=
  fun w => (Next (fst (PutDataset path ds (datasets w))),
            set_datasets (snd (PutDataset path ds (datasets w))) w).
Definition getDataset (path : Key) : M (Dataset + error) :=
  fun w => (Next (GetDataset path (datasets w)), w).
Definition hasPath (path : Key) : M (bool * option error) :=
  fun w => (Next (HasPath path (names w) (datasets w) (store w)), w).
Definition put (f : File) (pin : bool) : M (Key * option error) :=
  fun w => (Next (fst (Put f pin (store w))),
            set_store (snd (Put f pin (store w))) w).
Definition loadDataset (path : Key) : M (Dataset + error) :=
  fun w => (Next (fst (LoadDataset path (store w))),
            set_store (snd (LoadDataset path (store w))) w).
Definition saveDataset (ds : Dataset) (pin : bool) : M (Key * option error) :=
  fun w => (Next (fst (SaveDataset ds pin (store w))),
            set_store (snd (SaveDataset ds pin (store w))) w).
Definition httpGet (url : string) : M (Reader + error) :=
  fun w => (Next (fst (http_Get url (outside w))),
            set_outside (snd (http_Get url (outside w))) w).
Definition now : M Time :=
  fun w => (Next (fst (time_Now (outside w))),
            set_outside (snd (time_Now (outside w))) w).

(** *** DatasetRequests *)

Record DatasetRequests : Type := mkDatasetRequests {
  dr_repo : option RepoRef;
  dr_cli : option Client
}.

(** [NewDatasetRequests]; [None] is the panic on both arguments given. *)
Definition NewDatasetRequests (r : option RepoRef) (cli : option Client)
  : option DatasetRequests :=
  match r, cli with
  | Some _, Some _ => None
  | _, _ => Some {| dr_repo := r; dr_cli := cli |}
  end.

Definition setDataset (ref : DatasetRef) (ds : Dataset) : DatasetRef :=
  {| ref_Name := ref_Name ref; ref_Path := ref_Path ref; ref_Dataset := Some ds |}.

(** The two assignments to [p] at the head of [List]. *)
Definition ensureLimit (p : Params.ListParams) : Params.ListParams :=
  if Params.Limit p <=? 0
  then {| Params.OrderBy := Params.OrderBy p; Params.Limit := 25;
          Params.Offset := Params.Offset p |}
  else p.

Definition ensureOffset (p : Params.ListParams) : Params.ListParams :=
  if Params.Offset p <? 0
  then {| Params.OrderBy := Params.OrderBy p; Params.Limit := Params.Limit p;
          Params.Offset := 0 |}
  else p.

(** One turn of the loop of [List]: load, and load once more on error. *)
Definition List_load (ref : DatasetRef) : M Dataset :=
  r1 <- loadDataset (ref_Path ref) ;;
  match r1 with
  | inl ds => ret ds
  | inr _ =>
    r2 <- loadDataset (ref_Path ref) ;;
    match r2 with
    | inl ds => ret ds
    | inr e =>
      fail (Errorf ("error loading path: " ++ Key_String (ref_Path ref)
                    ++ ", err: " ++ Error e))
    end
  end.

(** [for i, ref := range replies { if i >= p.Limit { break } ... }] *)
Fixpoint List_range (limit i : Z) (replies : list DatasetRef)
  : M (list DatasetRef) :=
  match replies with
  | [] => ret []
  | ref :: rest =>
    if limit <=? i then ret replies
    else
      ds <- List_load ref ;;
      rest' <- List_range limit (i + 1) rest ;;
      ret (setDataset ref ds :: rest')
  end.

Definition List_body (p : Params.ListParams) : M (list DatasetRef) :=
  r <- namespace (Params.Limit p) (Params.Offset p) ;;
  replies <- try r "error getting namespace: " ;;
  List_range (Params.Limit p) 0 replies.

(** [List] also hands back [p], which it assigns to. *)
Definition List (r : DatasetRequests) (p : Params.ListParams)
           (res : list DatasetRef) (w : World)
  : Params.ListParams * (call (list DatasetRef) * World) :=
  match dr_cli r with
  | Some c => (p, remote c "DatasetRequests.List" p res w)
  | None =>
    match dr_repo r with
    | None => (p, (Panicked nilDeref, w))
    | Some _ =>
      let p := ensureOffset (ensureLimit p) in
      (p, exec (List_body p) res w)
    end
  end.

Definition Get_body (r : DatasetRequests) (p : GetDatasetParams) : M DatasetRef :=
  useRepo (dr_repo r) ;;;
  l <- loadDataset (gp_Path p) ;;
  ds <- tryPtr l "error loading dataset: " ;;
  name <- (if (Key_String (gp_Path p) =? "")%string then ret (gp_Name p)
           else n <- getName (gp_Path p) ;; ret (fst n)) ;;
  ret {| ref_Name := name; ref_Path := gp_Path p; ref_Dataset := Some ds |}.

Definition Get (r : DatasetRequests) (p : GetDatasetParams) (res : DatasetRef)
           (w : World) : call DatasetRef * World :=
  match dr_cli r with
  | Some c => remote c "DatasetRequests.Get" p res w
  | None => exec (Get_body r p) res w
  end.

(** The data source of [InitDataset]: the reader and the file name. *)
Definition InitDataset_source (p : InitDatasetParams) : M (Reader * string) :=
  if negb (ip_URL p =? "")%string then
    g <- httpGet (ip_URL p) ;;
    body <- tryPtr g "error fetching url: " ;;
    ret (body, filepath_Base (ip_URL p))
  else
    match ip_Data p with
    | Some d => ret (d, ip_DataFilename p)
    | None => fail (Errorf "either a file or a url is required to create a dataset")
    end.

(** [name := p.Name; if name == "" && filename != "" { ... }] *)
Definition InitDataset_name (p : InitDatasetParams) (filename : string) : string :=
  if (ip_Name p =? "")%string && negb (filename =? "")%string
  then Camelize filename
  else ip_Name p.

Definition withURL (p : InitDatasetParams) (ds : Dataset) : Dataset :=
  if negb (ip_URL p =? "")%string then
    {| ds_Title := ds_Title ds; ds_DownloadURL := ip_URL p;
       ds_AccrualPeriodicity := "R/P1W"; ds_Timestamp := ds_Timestamp ds;
       ds_Data := ds_Data ds; ds_Length := ds_Length ds;
       ds_Previous := ds_Previous ds; ds_Structure := ds_Structure ds |}
  else ds.

(** The assignments to [ds] between the metadata and the validation. *)
Definition InitDataset_fill (ds : Dataset) (t : Time) (name : string)
           (datakey : Key) (st : Structure) : Dataset :=
  let recv := match ds_Structure ds with Some s => s | None => zeroStructure end in
  {| ds_Title := if (ds_Title ds =? "")%string then name else ds_Title ds;
     ds_DownloadURL := ds_DownloadURL ds;
     ds_AccrualPeriodicity := ds_AccrualPeriodicity ds;
     ds_Timestamp := t;
     ds_Data := Key_String datakey;
     ds_Length := ds_Length ds;
     ds_Previous := ds_Previous ds;
     ds_Structure := Some (Structure_Assign recv [st; recv]) |}.

Definition InitDataset_body (r : DatasetRequests) (p : InitDatasetParams)
  : M DatasetRef :=
  useRepo (dr_repo r) ;;;
  src <- InitDataset_source p ;;
  let rdr := fst src in
  let filename := snd src in
  (if negb (ip_Name p =? "")%string
   then check (ValidName (ip_Name p)) "invalid name: "
   else ret tt) ;;;
  data <- try (ReadAll rdr) "error reading file: " ;;
  format <- try (ExtensionDataFormat filename) "error detecting format extension: " ;;
  check (validate_DataFormat format data) "invalid data format: " ;;;
  st <- tryPtr (FromReader filename data) "error determining dataset schema: " ;;
  check (validate_Structure st) "invalid structure: " ;;;
  check (validate_DataFormat (Structure_Format st) data) "invalid data format: " ;;;
  k <- put (NewMemfileBytes ("data." ++ DataFormat_String (Structure_Format st)) data) false ;;
  datakey <- try k "error putting data file in store: " ;;
  h <- hasPath datakey ;;
  (match snd h with
   | Some e =>
     if negb (Go.Contains (Error e) (Error ErrRepoEmpty))
     then fail (Errorf ("error checking repo for already-existing data: " ++ Error e))
     else ret tt
   | None => ret tt
   end) ;;;
  (if fst h then fail (Errorf "this data already exists") else ret tt) ;;;
  let name := InitDataset_name p filename in
  ds <- (match ip_Metadata p with
         | Some m => try (json_Decode m (withURL p zeroDataset))
                         "error parsing metadata json: "
         | None => ret (withURL p zeroDataset)
         end) ;;
  t <- now ;;
  let ds := InitDataset_fill ds t name datakey st in
  checkRaw (validate_Dataset ds) ;;;
  s <- saveDataset ds true ;;
  dskey <- try s "error saving dataset: " ;;
  e <- putDataset dskey ds ;;
  check e "error putting dataset in repo: " ;;;
  e <- putName name dskey ;;
  check e "error adding dataset name to repo: " ;;;
  g <- getDataset dskey ;;
  ds <- tryPtr g "error reading dataset: " ;;
  ret {| ref_Name := ip_Name p; ref_Path := dskey; ref_Dataset := Some ds |}.

Definition InitDataset (r : DatasetRequests) (p : InitDatasetParams)
           (res : DatasetRef) (w : World) : call DatasetRef * World :=
  match dr_cli r with
  | Some c => remote c "DatasetRequests.InitDataset" p res w
  | None => exec (InitDataset_body r p) res w
  end.

(** Name and path of the previous revision, from [p.Changes.Previous]:
    a name is looked up in the Namestore, anything else is taken as a
    path. *)
Definition Update_previous (p : UpdateParams) : M (string * Key) :=
  let rt := fst (RefType (Key_String (ds_Previous (up_Changes p)))) in
  let ref := snd (RefType (Key_String (ds_Previous (up_Changes p)))) in
  if (rt =? "name")%string then
    g <- getPath (Go.Trim1 ref "/"%char) ;;
    prevpath <- try g "error getting previous dataset path: " ;;
    ret (ref, prevpath)
  else
    n <- getName (NewKey ref) ;;
    ret (fst n, NewKey ref).

Definition setData (ds : Dataset) (data : string) (len : Z) : Dataset :=
  {| ds_Title := ds_Title ds; ds_DownloadURL := ds_DownloadURL ds;
     ds_AccrualPeriodicity := ds_AccrualPeriodicity ds;
     ds_Timestamp := ds_Timestamp ds; ds_Data := data; ds_Length := len;
     ds_Previous := ds_Previous ds; ds_Structure := ds_Structure ds |}.

Definition setPrevious (ds : Dataset) (prev : Key) : Dataset :=
  {| ds_Title := ds_Title ds; ds_DownloadURL := ds_DownloadURL ds;
     ds_AccrualPeriodicity := ds_AccrualPeriodicity ds;
     ds_Timestamp := ds_Timestamp ds; ds_Data := ds_Data ds;
     ds_Length := ds_Length ds; ds_Previous := prev;
     ds_Structure := ds_Structure ds |}.

Definition setTimestamp (ds : Dataset) (t : Time) : Dataset :=
  {| ds_Title := ds_Title ds; ds_DownloadURL := ds_DownloadURL ds;
     ds_AccrualPeriodicity := ds_AccrualPeriodicity ds;
     ds_Timestamp := t; ds_Data := ds_Data ds;
     ds_Length := ds_Length ds; ds_Previous := ds_Previous ds;
     ds_Structure := ds_Structure ds |}.

(** The value [Update] gives to [ds.Previous]. *)
Definition Update_link (prevpath : Key) : Key :=
  if Go.HasSuffix (Key_String prevpath) PackageFileDataset
  then NewKey (Go.TrimSuffix (Key_String prevpath) ("/" ++ PackageFileDataset))
  else prevpath.

(** [p.Data] is read to the end for its length, and the file put in the
    store is built from the same reader afterwards. *)
Definition Update_data (p : UpdateParams) (ds : Dataset) : M Dataset :=
  match up_Data p with
  | None => ret ds
  | Some rdr =>
    data <- try (ReadAll rdr) "error reading data: " ;;
    k <- put (NewMemfileReader (up_DataFilename p) (drained rdr)) false ;;
    path <- try k "error putting data in store: " ;;
    ret (setData ds (Key_String path) (Go.len data))
  end.

Definition Update_rebind (name : string) (dspath : Key) : M unit :=
  if negb (name =? "")%string then
    e <- deleteName name ;;
    checkRaw e ;;;
    e <- putName name dspath ;;
    checkRaw e
  else ret tt.

Definition Update_body (r : DatasetRequests) (p : UpdateParams) : M DatasetRef :=
  useRepo (dr_repo r) ;;;
  np <- Update_previous p ;;
  let name := fst np in
  let prevpath := snd np in
  g <- getDataset prevpath ;;
  prev <- tryPtr g "error getting previous dataset: " ;;
  ds <- Update_data p (Dataset_Assign zeroDataset [prev; up_Changes p]) ;;
  let ds := setPrevious ds (Update_link prevpath) in
  checkRaw (validate_Dataset ds) ;;;
  t <- now ;;
  let ds := setTimestamp ds t in
  s <- saveDataset ds true ;;
  dspath <- try s "error saving dataset: " ;;
  Update_rebind name dspath ;;;
  ret {| ref_Name := name; ref_Path := dspath; ref_Dataset := Some ds |}.

Definition Update (r : DatasetRequests) (p : UpdateParams) (res : DatasetRef)
           (w : World) : call DatasetRef * World :=
  match dr_cli r with
  | Some c => remote c "DatasetRequests.Update" p res w
  | None => exec (Update_body r p) res w
  end.

(** [if _, err := r.repo.GetPath(p.New); err != repo.ErrNotFound] *)
Definition Rename_free (g : Key * option error) : bool :=
  match snd g with
  | Some e => error_eqb e ErrNotFound
  | None => false
  end.

Definition Rename_body (r : DatasetRequests) (p : RenameParams) : M DatasetRef :=
  (if (rp_Current p =? "")%string
   then fail (Errorf "current name is required to rename a dataset")
   else ret tt) ;;;
  checkRaw (ValidName (rp_New p)) ;;;
  useRepo (dr_repo r) ;;;
  g <- getPath (rp_New p) ;;
  (if Rename_free g then ret tt
   else fail (Errorf ("name '" ++ rp_New p ++ "' already exists"))) ;;;
  g <- getPath (rp_Current p) ;;
  path <- try g "error getting dataset: " ;;
  e <- deleteName (rp_Current p) ;;
  checkRaw e ;;;
  e <- putName (rp_New p) path ;;
  checkRaw e ;;;
  l <- loadDataset path ;;
  ds <- (match l with inl ds => ret ds | inr e => fail e end) ;;
  ret {| ref_Name := rp_New p; ref_Path := path; ref_Dataset := Some ds |}.

Definition Rename (r : DatasetRequests) (p : RenameParams) (res : DatasetRef)
           (w : World) : call DatasetRef * World :=
  match dr_cli r with
  | Some c => remote c "DatasetRequests.Rename" p res w
  | None => exec (Rename_body r p) res w
  end.

(** [Delete] assigns to the fields of [p] as it goes; the steps are
    written out with [p] threaded through them. *)
Definition Delete_local (r : DatasetRequests) (p : DeleteParams) (w : World)
  : DeleteParams * (step bool * World) :=
  if ((dp_Name p =? "") && (Key_String (dp_Path p) =? ""))%string then
    (p, (Fail (Errorf "either name or path is required"), w))
  else
    match dr_repo r with
    | None => (p, (Panic nilDeref, w))
    | Some _ =>
      let '(p, err) :=
        if (Key_String (dp_Path p) =? "")%string then
          let g := GetPath (dp_Name p) (names w) in
          ({| dp_Path := fst g; dp_Name := dp_Name p |}, snd g)
        else (p, None) in
      match err with
      | Some e => (p, (Fail e, w))
      | None =>
        let n := GetName (dp_Path p) (names w) in
        let p := {| dp_Path := dp_Path p; dp_Name := fst n |} in
        match snd n with
        | Some e => (p, (Fail e, w))
        | None =>
          let '(err, fs) :=
            match Unpin with
            | Some unpin =>
              unpin (NewKey (Go.TrimSuffix (Key_String (dp_Path p))
                                           ("/" ++ PackageFileDataset)))
                    true (store w)
            | None => (None, store w)
            end in
          let w := set_store fs w in
          match err with
          | Some e => (p, (Fail e, w))
          | None =>
            let '(err, ns) := DeleteName (dp_Name p) (names w) in
            let w := set_names ns w in
            match err with
            | Some e => (p, (Fail e, w))
            | None => (p, (Next true, w))
            end
          end
        end
      end
    end.

Definition Delete (r : DatasetRequests) (p : DeleteParams) (ok : bool)
           (w : World) : DeleteParams * (call bool * World) :=
  match dr_cli r with
  | Some c => (p, remote c "DatasetRequests.List" p ok w)
  | None =>
    let '(p', (s, w')) := Delete_local r p w in
    (p', exec (fun _ => (s, w')) ok w)
  end.

(** *** HistoryRequests *)

Record HistoryRequests : Type := mkHistoryRequests {
  hr_repo : option RepoRef;
  hr_cli : option Client
}.

(** [NewHistoryRequests]; [None] is the panic on both arguments given.
    The struct literal sets [repo] only. *)
Definition NewHistoryRequests (r : option RepoRef) (cli : option Client)
  : option HistoryRequests :=
  match r, cli with
  | Some _, Some _ => None
  | _, _ => Some {| hr_repo := r; hr_cli := None |}
  end.

Definition refAt (path : Key) (ds : Dataset) : DatasetRef :=
  {| ref_Name := ""; ref_Path := path; ref_Dataset := Some ds |}.

(** The path of the next turn: [Previous] as cleaned by [dsfs.RefType]. *)
Definition Log_next (ds : Dataset) : Key :=
  NewKey (snd (RefType (Key_String (ds_Previous ds)))).

(** The [for] loop of [Log].  It has no bound of its own: [fuel] counts
    the turns the model grants it, [None] is fuel run out. *)
Fixpoint Log_loop (fuel : nat) (limit : Z) (path : Key) (log : list DatasetRef)
         (fs : FS) : option (step (list DatasetRef) * FS) :=
  match fuel with
  | O => None
  | S fuel' =>
    match LoadDataset path fs with
    | (inr e, fs') => Some (Fail e, fs')
    | (inl ds, fs') =>
      let log := (log ++ [refAt path ds])%list in
      let limit := Go.sub limit 1 in
      if (limit =? 0) || (Key_String (ds_Previous ds) =? "")%string
      then Some (Next log, fs')
      else Log_loop fuel' limit (Log_next ds) log fs'
    end
  end.

Definition Log_local (d : HistoryRequests) (fuel : nat) (params : LogParams)
           (w : World) : option (step (list DatasetRef) * World) :=
  if (Key_String (lp_Path params) =? "")%string
  then Some (Fail (Errorf "path is required"), w)
  else
    match hr_repo d with
    | None => Some (Panic nilDeref, w)
    | Some _ =>
      match Log_loop fuel (Params.Limit (lp_ListParams params))
                     (lp_Path params) [] (store w) with
      | Some (s, fs) => Some (s, set_store fs w)
      | None => None
      end
    end.

Definition Log (d : HistoryRequests) (fuel : nat) (params : LogParams)
           (res : list DatasetRef) (w : World)
  : option (call (list DatasetRef) * World) :=
  match hr_cli d with
  | Some c => Some (remote c "HistoryRequests.Log" params res w)
  | None =>
    match Log_local d fuel params w with
    | Some (s, w') => Some (exec (fun _ => (s, w')) res w)
    | None => None
    end
  end.

End Handlers.

(** ** What the handlers expect of a Namestore

    A name resolves to the path it was last bound to, binding or deleting
    one name leaves the others alone, and a call that fails changes
    nothing. *)
Record NamestoreLaws {T : Types} (B : Backend) : Prop := {
  PutName_GetPath : forall n p s s',
      PutName n p s = (None, s') -> GetPath n s' = (p, None);
  PutName_other : forall n p s s' m,
      PutName n p s = (None, s') -> m <> n -> GetPath m s' = GetPath m s;
  PutName_failed : forall n p s e s',
      PutName n p s = (Some e, s') -> s' = s;
  DeleteName_GetPath : forall n s s',
      DeleteName n s = (None, s') -> snd (GetPath n s') = Some ErrNotFound;
  DeleteName_other : forall n s s' m,
      DeleteName n s = (None, s') -> m <> n -> GetPath m s' = GetPath m s;
  DeleteName_failed : forall n s e s',
      DeleteName n s = (Some e, s') -> s' = s
}.

(** ** An in-memory repository and stand-ins for the imported packages

    Used to run the handlers on examples. *)
Module Mem.

Definition types : Types :=
  {| Time := Z; zeroTime := 0;
     Structure := (string * list string)%type;
     DataFormat := string |}.

#[local] Existing Instance types.

Definition isLetter (c : ascii) : bool :=
  let n := nat_of_ascii c in
  ((65 <=? n)%nat && (n <=? 90)%nat) || ((97 <=? n)%nat && (n <=? 122)%nat).
Definition isDigit (c : ascii) : bool :=
  let n := nat_of_ascii c in (48 <=? n)%nat && (n <=? 57)%nat.
Definition isUnderscore (c : ascii) : bool := Ascii.eqb c "_"%char.

Fixpoint allChars (f : ascii -> bool) (s : string) : bool :=
  match s with
  | EmptyString => true
  | String c s' => f c && allChars f s'
  end.

Fixpoint mapChars (f : ascii -> ascii) (s : string) : string :=
  match s with
  | EmptyString => EmptyString
  | String c s' => String (f c) (mapChars f s')
  end.

(** Names match [[A-Za-z_][A-Za-z0-9_]*]. *)
Definition validName (s : string) : bool :=
  match s with
  | EmptyString => false
  | String c s' =>
    (isLetter c || isUnderscore c)
    && allChars (fun a => isLetter a || isDigit a || isUnderscore a) s'
  end.

(** Split on a separator character. *)
Fixpoint split (sep : ascii) (s cur : string) : list string :=
  match s with
  | EmptyString => [Go.rev cur]
  | String c s' =>
    if Ascii.eqb c sep then Go.rev cur :: split sep s' EmptyString
    else split sep s' (String c cur)
  end.

Definition newline : ascii := ascii_of_nat 10.

Definition rows (data : string) : list (list string) :=
  map (fun l => split ","%char l EmptyString)
      (filter (fun l => negb (l =? "")%string) (split newline data EmptyString)).

Definition csvError (data : string) : option error :=
  match rows data with
  | [] => Some (Errorf "error reading first row of csv: EOF")
  | h :: t =>
    if forallb (fun r => (List.length r =? List.length h)%nat) t then None
    else Some (Errorf "error: inconsistent column length")
  end.

Fixpoint hasDup (l : list string) : bool :=
  match l with
  | [] => false
  | x :: t => existsb (String.eqb x) t || hasDup t
  end.

Definition lower (c : ascii) : ascii :=
  let n := nat_of_ascii c in
  if (65 <=? n)%nat && (n <=? 90)%nat then ascii_of_nat (n + 32) else c.

Fixpoint afterLastSlash (s acc : string) : string :=
  match s with
  | EmptyString => acc
  | String c s' =>
    if Ascii.eqb c "/"%char then afterLastSlash s' EmptyString
    else afterLastSlash s' (acc ++ String c EmptyString)
  end.

Definition cleanHash (s : string) : string :=
  let s := if Go.HasPrefix s "/ipfs/" then s else "/ipfs/" ++ s in
  if Go.HasSuffix s "dataset.json" then s else s ++ "/dataset.json".

Definition pick (a b : string) : string := if (b =? "")%string then a else b.

Definition assignDataset (a b : Dataset) : Dataset :=
  {| ds_Title := pick (ds_Title a) (ds_Title b);
     ds_DownloadURL := pick (ds_DownloadURL a) (ds_DownloadURL b);
     ds_AccrualPeriodicity := pick (ds_AccrualPeriodicity a) (ds_AccrualPeriodicity b);
     ds_Timestamp := if ds_Timestamp b =? 0 then ds_Timestamp a else ds_Timestamp b;
     ds_Data := pick (ds_Data a) (ds_Data b);
     ds_Length := if ds_Length b =? 0 then ds_Length a else ds_Length b;
     ds_Previous := pick (ds_Previous a) (ds_Previous b);
     ds_Structure := match ds_Structure b with Some s => Some s | None => ds_Structure a end |}.

Definition assignStructure (a b : string * list string) : string * list string :=
  (pick (fst a) (fst b), match snd b with [] => snd a | l => l end).

(** Stand-ins for go-datastore, dsfs, detect and validate: keys are
    rooted paths, a reference is a path when it starts with [/ipfs/] or
    ends with the package file name, data is comma-separated rows, and
    the metadata stream holds a title. *)
Definition libs : Libs :=
  {| NewKey := fun s => if Go.HasPrefix s "/" then s else "/" ++ s;
     RefType := fun s =>
       if Go.HasSuffix s "dataset.json" || Go.HasPrefix s "/ipfs/"
       then ("path", cleanHash s) else ("name", s);
     PackageFileDataset := "dataset.json";
     ValidName := fun s =>
       if validName s then None else Some (Errorf "error: illegal name");
     ExtensionDataFormat := fun f =>
       if (Go.Ext f =? "")%string
       then ("", Some (Errorf "no file extension provided"))
       else if (Go.Ext f =? ".csv")%string then ("csv", None)
       else ("", Some (Errorf ("unsupported file type: '" ++ Go.Ext f ++ "'")));
     validate_DataFormat := fun _ data => csvError data;
     FromReader := fun _ data =>
       match rows data with
       | h :: _ => inl ("csv", map (mapChars lower) h)
       | [] => inr (Errorf "invalid csv data")
       end;
     validate_Structure := fun st =>
       if hasDup (snd st)
       then Some (Errorf "error: cannot use the same name more than once")
       else None;
     validate_Dataset := fun _ => None;
     Camelize := fun f =>
       mapChars (fun c => if isLetter c || isDigit c then lower c else "_"%char)
                (Go.TrimSuffix f (Go.Ext f));
     DataFormat_String := fun f => f;
     Structure_Format := fun st => fst st;
     zeroStructure := ("", []);
     Structure_Assign := fun recv l => fold_left assignStructure l recv;
     Dataset_Assign := fun recv l => fold_left assignDataset l recv;
     json_Decode := fun m ds =>
       match readErr m with
       | Some e => (ds, Some e)
       | None =>
         if (content m =? "")%string then (ds, Some (Errorf "EOF"))
         else (assignDataset ds
                 {| ds_Title := content m; ds_DownloadURL := "";
                    ds_AccrualPeriodicity := ""; ds_Timestamp := 0;
                    ds_Data := ""; ds_Length := 0; ds_Previous := "";
                    ds_Structure := None |}, None)
       end;
     filepath_Base := fun p =>
       if (p =? "")%string then "." else afterLastSlash p EmptyString |}.

#[local] Existing Instance libs.

Fixpoint lookup {V : Type} (k : string) (l : list (string * V)) : option V :=
  match l with
  | [] => None
  | (k', v) :: t => if (k =? k')%string then Some v else lookup k t
  end.

Fixpoint nameOf (path : Key) (l : list (string * Key)) : string :=
  match l with
  | [] => ""
  | (n, p) :: t => if (path =? p)%string then n else nameOf path t
  end.

Fixpoint removeFirst (k : Key) (l : list Key) : list Key :=
  match l with
  | [] => []
  | x :: t => if (k =? x)%string then t else x :: removeFirst k t
  end.

(** The Datasets store, with a switch for a store that cannot be read. *)
Record MemDatasets : Type := mkMemDatasets {
  entries : list (Key * Dataset);
  unreadable : bool
}.

(** The filestore: raw files, saved datasets, and the keys whose next
    load fails once. *)
Record MemStore : Type := mkMemStore {
  files : list (Key * string);
  saved : list (Key * Dataset);
  flaky : list Key
}.

Definition digest (ds : Dataset) : string :=
  ds_Title ds ++ ":" ++ ds_Data ds ++ ":" ++ ds_Previous ds.

(** Modelled from the spec: the in-memory implementation of the Repo
    interface (repo.NewMemRepo and its stores are not among the source
    files).  The Namestore follows section 4.2: PutName fails on an invalid
    or already bound name, GetPath and GetName are exact lookups, GetName
    gives the empty name when none is bound, DeleteName reports a name
    that is absent, Namespace pages the bindings in insertion order. *)
Definition repo : Backend :=
  {| NS := list (string * Key);
     DS := MemDatasets;
     FS := MemStore;
     OS := Z;
     Client := unit;
     PutName := fun n p s =>
       if negb (validName n) then (Some (Errorf "error: illegal name"), s)
       else match lookup n s with
            | Some _ => (Some ErrNameTaken, s)
            | None => (None, (s ++ [(n, p)])%list)
            end;
     GetPath := fun n s =>
       match lookup n s with
       | Some p => (p, None)
       | None => ("", Some ErrNotFound)
       end;
     GetName := fun p s => (nameOf p s, None);
     DeleteName := fun n s =>
       match lookup n s with
       | Some _ => (None, filter (fun b => negb (fst b =? n)%string) s)
       | None => (Some ErrNotFound, s)
       end;
     Namespace := fun limit offset s fs =>
       (map (fun b => {| ref_Name := fst b; ref_Path := snd b;
                         ref_Dataset := lookup (snd b) (saved fs) |})
            (firstn (Z.to_nat limit) (skipn (Z.to_nat offset) s)), None, fs);
     PutDataset := fun k ds d =>
       (None, {| entries := (k, ds) :: entries d; unreadable := unreadable d |});
     GetDataset := fun k d =>
       if unreadable d then inr (Errorf "read datasets file: input/output error")
       else match lookup k (entries d) with
            | Some ds => inl ds
            | None => inr ErrNotFound
            end;
     HasPath := fun k s d fs =>
       match s with
       | [] => (false, Some ErrRepoEmpty)
       | _ => (existsb (fun e => (ds_Data (snd e) =? k)%string) (entries d), None)
       end;
     Put := fun f pin fs =>
       let k := "/mem/" ++ FileBytes f in
       (k, None, {| files := (k, FileBytes f) :: files fs; saved := saved fs;
                    flaky := flaky fs |});
     Unpin := Some (fun _ _ fs => (None, fs));
     LoadDataset := fun k fs =>
       if existsb (String.eqb k) (flaky fs)
       then (inr (Errorf "error getting file bytes: timeout"),
             {| files := files fs; saved := saved fs;
                flaky := removeFirst k (flaky fs) |})
       else match lookup k (saved fs) with
            | Some ds => (inl ds, fs)
            | None => (inr (Errorf "error getting file bytes: datastore: key not found"), fs)
            end;
     SaveDataset := fun ds pin fs =>
       let k := "/mem/" ++ digest ds ++ "/dataset.json" in
       (k, None, {| files := files fs; saved := (k, ds) :: saved fs;
                    flaky := flaky fs |});
     http_Get := fun _ o => (inr (Errorf "no route to host"), o);
     time_Now := fun o => (o, o + 1);
     rpc_Call := fun _ _ _ _ _ r o => (r, Some (Errorf "connection is shut down"), o) |}.

#[local] Existing Instance repo.

Definition emptyWorld : World :=
  {| names := []; datasets := {| entries := []; unreadable := false |};
     store := {| files := []; saved := []; flaky := [] |}; outside := 1 |}.

Definition local : DatasetRequests :=
  {| dr_repo := Some LocalRepo; dr_cli := None |}.

Definition history : HistoryRequests :=
  {| hr_repo := Some LocalRepo; hr_cli := None |}.

Definition csv (lines : list string) : string :=
  String.concat (String newline EmptyString) lines.

Definition jobs : InitDatasetParams :=
  {| ip_Name := ""; ip_URL := ""; ip_DataFilename := "jobs.csv";
     ip_Data := Some {| content := csv ["rank,title"; "702,Telemarketers"; "701,Examiners"];
                        readErr := None |};
     ip_MetadataFilename := ""; ip_Metadata := None |}.

(** A dataset with four revisions, bound to the name [jobs]. *)
Definition revision (title : string) (prev : Key) : Dataset :=
  {| ds_Title := title; ds_DownloadURL := ""; ds_AccrualPeriodicity := "";
     ds_Timestamp := 1; ds_Data := "/mem/rank,title"; ds_Length := 0;
     ds_Previous := prev; ds_Structure := Some ("csv", ["rank"; "title"]) |}.

Definition path0 : Key := "/ipfs/QmRev0/dataset.json".
Definition path1 : Key := "/ipfs/QmRev1/dataset.json".
Definition path2 : Key := "/ipfs/QmRev2/dataset.json".
Definition path3 : Key := "/ipfs/QmRev3/dataset.json".

Definition rev0 : Dataset := revision "jobs" "".
Definition rev1 : Dataset := revision "jobs, second edition" "/ipfs/QmRev0".
Definition rev2 : Dataset := revision "jobs, third edition" "/ipfs/QmRev1".
Definition rev3 : Dataset := revision "jobs, fourth edition" "/ipfs/QmRev2".

Definition revisions : list (Key * Dataset) :=
  [(path3, rev3); (path2, rev2); (path1, rev1); (path0, rev0)].

Definition jobsWorld : World :=
  {| names := [("jobs", path3)];
     datasets := {| entries := revisions; unreadable := false |};
     store := {| files := []; saved := revisions; flaky := [] |};
     outside := 5 |}.

(** The same, with the second revision missing from the store. *)
Definition gapWorld : World :=
  {| names := [("jobs", path3)];
     datasets := {| entries := revisions; unreadable := false |};
     store := {| files := [];
                 saved := [(path3, rev3); (path2, rev2); (path0, rev0)];
                 flaky := [] |};
     outside := 5 |}.

(** The same as [jobsWorld], with the next load of the newest revision
    failing once. *)
Definition flakyWorld : World :=
  {| names := [("jobs", path3)];
     datasets := {| entries := revisions; unreadable := false |};
     store := {| files := []; saved := revisions; flaky := [path3] |};
     outside := 5 |}.

(** An empty repository whose Datasets store cannot be read. *)
Definition unreadableWorld : World :=
  {| names := []; datasets := {| entries := []; unreadable := true |};
     store := {| files := []; saved := []; flaky := [] |}; outside := 1 |}.

Definition history4 : list DatasetRef :=
  [refAt path3 rev3; refAt path2 rev2; refAt path1 rev1; refAt path0 rev0].

(** An update of the newest revision, referred to by its path. *)
Definition retitle : UpdateParams :=
  {| up_Changes := revision "jobs, fifth edition" path3;
     up_DataFilename := ""; up_Data := None |}.

(** The same update, with new data whose stream breaks off. *)
Definition retitleBroken : UpdateParams :=
  {| up_Changes := revision "jobs, fifth edition" path3;
     up_DataFilename := "jobs.csv";
     up_Data := Some {| content := "rank,title";
                        readErr := Some (Errorf "unexpected EOF") |} |}.

(** Inputs for [InitDataset]: no data at all, no extension, rows of
    unequal length, a column name used twice. *)
Definition upload (name filename : string) (lines : list string)
  : InitDatasetParams :=
  {| ip_Name := name; ip_URL := ""; ip_DataFilename := filename;
     ip_Data := Some {| content := csv lines; readErr := None |};
     ip_MetadataFilename := ""; ip_Metadata := None |}.

Definition nothing : InitDatasetParams :=
  {| ip_Name := ""; ip_URL := ""; ip_DataFilename := ""; ip_Data := None;
     ip_MetadataFilename := ""; ip_Metadata := None |}.

Definition noExtension : InitDatasetParams :=
  upload "" "jobs" ["rank,title"; "702,Telemarketers"].

Definition ragged : InitDatasetParams :=
  upload "" "abc.csv" ["colA,colB,colC,colD"; "1,2,3,4"; "1,2,3"].

Definition dupColumns : InitDatasetParams :=
  upload "" "badStructure.csv" ["colA,colB,colB,colC"; "1,2,3,4"; "1,2,3,4"].

End Mem.

(** ** History chains

    The records reached from a path by following [Previous], as the walk
    of [Log] meets them: every load succeeds and the last record has an
    empty [Previous].  The list is the chain, newest first. *)
Section Chains.
Context {T : Types} {L : Libs} {B : Backend}.

Inductive Chain : FS -> Key -> list DatasetRef -> Prop :=
| Chain_root fs fs' path ds :
    LoadDataset path fs = (inl ds, fs') ->
    Key_String (ds_Previous ds) = "" ->
    Chain fs path [refAt path ds]
| Chain_link fs fs' path ds rest :
    LoadDataset path fs = (inl ds, fs') ->
    Key_String (ds_Previous ds) <> "" ->
    Chain fs' (Log_next ds) rest ->
    Chain fs path (refAt path ds :: rest).

(** A walk whose load fails with [e] after [n] records were loaded. *)
Inductive Broken : FS -> Key -> nat -> error -> Prop :=
| Broken_here fs fs' path e :
    LoadDataset path fs = (inr e, fs') ->
    Broken fs path 0 e
| Broken_later fs fs' path ds n e :
    LoadDataset path fs = (inl ds, fs') ->
    Key_String (ds_Previous ds) <> "" ->
    Broken fs' (Log_next ds) n e ->
    Broken fs path (S n) e.

Definition logParams (lp : Params.ListParams) (path : Key) : LogParams :=
  {| lp_ListParams := lp; lp_Path := path |}.

(** ** Hydrating a namespace page

    What section 4.3 asks of [List], in its own words: each entry's
    dataset body is loaded, a load that fails is tried once more, and a
    second failure fails the whole call. *)
Inductive Loaded : Key -> FS -> Dataset + error -> FS -> Prop :=
| Loaded_first path fs ds fs1 :
    LoadDataset path fs = (inl ds, fs1) ->
    Loaded path fs (inl ds) fs1
| Loaded_retry path fs e1 fs1 r fs2 :
    LoadDataset path fs = (inr e1, fs1) ->
    LoadDataset path fs1 = (r, fs2) ->
    Loaded path fs r fs2.

Definition loadError (ref : DatasetRef) (e : error) : error :=
  Errorf ("error loading path: " ++ Key_String (ref_Path ref)
          ++ ", err: " ++ Error e).

Inductive Hydrated : list DatasetRef -> FS -> list DatasetRef + error -> FS -> Prop :=
| Hydrated_nil fs :
    Hydrated [] fs (inl []) fs
| Hydrated_cons ref rest fs ds fs1 l fs2 :
    Loaded (ref_Path ref) fs (inl ds) fs1 ->
    Hydrated rest fs1 (inl l) fs2 ->
    Hydrated (ref :: rest) fs (inl (setDataset ref ds :: l)) fs2
| Hydrated_later ref rest fs ds fs1 e fs2 :
    Loaded (ref_Path ref) fs (inl ds) fs1 ->
    Hydrated rest fs1 (inr e) fs2 ->
    Hydrated (ref :: rest) fs (inr e) fs2
| Hydrated_failed ref rest fs e fs1 :
    Loaded (ref_Path ref) fs (inr e) fs1 ->
    Hydrated (ref :: rest) fs (inr (loadError ref e)) fs1.

(** The file name [InitDataset] works with. *)
Definition InitDataset_filename (p : InitDatasetParams) : string :=
  if negb (ip_URL p =? "")%string then filepath_Base (ip_URL p)
  else ip_DataFilename p.

(** The reference in [p.Changes.Previous], as [dsfs.RefType] reads it. *)
Definition Update_ref (p : UpdateParams) : string * string :=
  RefType (Key_String (ds_Previous (up_Changes p))).

(** [prevpath] is what the reference resolves to: through the Namestore
    for a name, directly for a path. *)
Definition Resolves (p : UpdateParams) (w : World) (prevpath : Key) : Prop :=
  (fst (Update_ref p) = "name"
   /\ GetPath (Go.Trim1 (snd (Update_ref p)) "/"%char) (names w) = (prevpath, None))
  \/ (fst (Update_ref p) <> "name" /\ prevpath = NewKey (snd (Update_ref p))).

End Chains.

(** ** core/params.go: parameters read from a request

    [util.ReqParamInt] and [http.Request.FormValue] are taken as given. *)
Section FromRequest.
Variable Request : Type.
Variable ReqParamInt : string -> Request -> Z * option error.
Variable FormValue : Request -> string -> string.

Definition ListParamsFromRequest (r : Request) : Params.ListParams :=
  let page :=
    match snd (ReqParamInt "page" r) with
    | None => fst (ReqParamInt "page" r)
    | Some _ => 0
    end in
  let pageSize :=
    match snd (ReqParamInt "pageSize" r) with
    | None => fst (ReqParamInt "pageSize" r)
    | Some _ => 0
    end in
  Params.NewListParams (FormValue r "orderBy") page pageSize.

End FromRequest.

(** ** The result of a walk

    A list of references that starts at [path] and in which every record
    but the last has a non-empty [Previous], the next reference being at
    the path [Previous] cleans to. *)
Section Walks.
Context {T : Types} {L : Libs} {B : Backend}.

Fixpoint Linked (path : Key) (l : list DatasetRef) : Prop :=
  match l with
  | [] => False
  | ref :: rest =>
    exists ds,
      ref = refAt path ds
      /\ match rest with
         | [] => True
         | _ :: _ =>
           Key_String (ds_Previous ds) <> "" /\ Linked (Log_next ds) rest
         end
  end.

End Walks.

(** ** core/datasets.go: AddDataset

    [AddDataset] works only on a store that is an [*ipfs.Filestore];
    [asIpfs] is the outcome of that type assertion on [r.repo.Store()],
    with the two methods the handler calls on it. *)
Record AddParams : Type := mkAddParams {
  ap_Name : string;
  ap_Hash : string
}.

Record IpfsFilestore {T : Types} {B : Backend} : Type := mkIpfsFilestore {
  Fetch : Key -> FS -> option error * FS;
  Pin : Key -> bool -> FS -> option error * FS
}.

Section Adding.
Context {T : Types} {L : Libs} {B : Backend}.
Variable asIpfs : option IpfsFilestore.
Local Open Scope go_scope.

Definition fetch (fs : IpfsFilestore) (key : Key) : M (option error) :=
  fun w => (Next (fst (Fetch fs key (store w))),
            set_store (snd (Fetch fs key (store w))) w).
Definition pin (fs : IpfsFilestore) (key : Key) (recursive : bool)
  : M (option error) :=
  fun w => (Next (fst (Pin fs key recursive (store w))),
            set_store (snd (Pin fs key recursive (store w))) w).

(** [key] and [path] of [AddDataset]. *)
Definition AddDataset_key (p : AddParams) : Key :=
  NewKey (Go.TrimSuffix (ap_Hash p) ("/" ++ PackageFileDataset)).
Definition AddDataset_path (p : AddParams) : Key :=
  NewKey (Key_String (AddDataset_key p) ++ "/" ++ PackageFileDataset).

Definition AddDataset_body (r : DatasetRequests) (p : AddParams) : M DatasetRef :=
  useRepo (dr_repo r) ;;;
  match asIpfs with
  | None => fail (Errorf "can only add datasets when running an IPFS filestore")
  | Some fs =>
    let key := AddDataset_key p in
    e <- fetch fs key ;;
    check e "error fetching file: " ;;;
    e <- pin fs key true ;;
    check e "error pinning root key: " ;;;
    let path := AddDataset_path p in
    e <- putName (ap_Name p) path ;;
    check e "error putting dataset name in repo: " ;;;
    l <- loadDataset path ;;
    match l with
    | inl ds =>
      ret {| ref_Name := ap_Name p; ref_Path := path; ref_Dataset := Some ds |}
    | inr _ =>
      fail (Errorf ("error loading newly saved dataset path: "
                    ++ Key_String path))
    end
  end.

Definition AddDataset (r : DatasetRequests) (p : AddParams) (res : DatasetRef)
           (w : World) : call DatasetRef * World :=
  match dr_cli r with
  | Some c => remote c "DatasetRequests.AddDataset" p res w
  | None => exec (AddDataset_body r p) res w
  end.

End Adding.

(** ** core/peers.go: PeerRequests.List

    [profile.Profile] with the two fields this code reads.  The node's
    repository is read through [Profile()] and [repo.QueryPeers]; the
    slice for the replies is allocated up front with [make], which
    panics on a negative length and on one beyond what the runtime can
    allocate ([maxSliceLen]). *)
Record Profile : Type := mkProfile {
  pf_ID : string;
  pf_Username : string
}.

Section Peers.
Variable Node : Type.
Variable Repo_Profile : Node -> Profile * option error.
Variable QueryPeers : Node -> list Profile * option error.
Variable PeerClient : Type.
Variable Call : PeerClient -> string -> Params.ListParams -> list Profile
                -> list Profile * option error.
Variable maxSliceLen : Z.

Record PeerRequests : Type := mkPeerRequests {
  pr_qriNode : option Node;
  pr_cli : option PeerClient
}.

(** [NewPeerRequests]; [None] is the panic on both arguments given. *)
Definition NewPeerRequests (node : option Node) (cli : option PeerClient)
  : option PeerRequests :=
  match node, cli with
  | Some _, Some _ => None
  | _, _ => Some {| pr_qriNode := node; pr_cli := cli |}
  end.

Definition makesliceRange : string :=
  "runtime error: makeslice: len out of range".

(** The loop over [ps], from the index [i] on: what it writes to
    [replies[i:]]. *)
Fixpoint PeerRequests_List_range (limit i : Z) (user : Profile)
         (ps : list Profile) : list Profile :=
  match ps with
  | [] => []
  | peer :: rest =>
    if limit <=? i then []
    else if (pf_ID peer =? pf_ID user)%string
         then PeerRequests_List_range limit i user rest
         else peer :: PeerRequests_List_range limit (Go.add i 1) user rest
  end.

Definition PeerRequests_List (d : PeerRequests) (p : Params.ListParams)
           (res : list Profile) : call (list Profile) :=
  match pr_cli d with
  | Some c =>
    let '(r, err) := Call c "PeerRequests.List" p res in Returned r err
  | None =>
    match pr_qriNode d with
    | None => Panicked nilDeref
    | Some n =>
      if (Params.Limit p <? 0) || (maxSliceLen <? Params.Limit p)
      then Panicked makesliceRange
      else
        match Repo_Profile n with
        | (_, Some e) => Returned res (Some e)
        | (user, None) =>
          match QueryPeers n with
          | (_, Some e) =>
            Returned res (Some (Errorf ("error querying peers: " ++ Error e)))
          | (ps, None) =>
            Returned (PeerRequests_List_range (Params.Limit p) 0 user ps) None
          end
        end
    end
  end.

End Peers.

(** ** More inputs for the examples *)
Module MemMore.
Import Mem.
#[local] Existing Instance types.
#[local] Existing Instance libs.
#[local] Existing Instance repo.

(** The name [jobs] bound to a path the store has nothing under. *)
Definition orphanWorld : World :=
  {| names := [("jobs", path3)];
     datasets := {| entries := revisions; unreadable := false |};
     store := {| files := []; saved := []; flaky := [] |};
     outside := 5 |}.

(** An update of the newest revision that brings new data. *)
Definition redata : UpdateParams :=
  {| up_Changes := revision "jobs, fifth edition" path3;
     up_DataFilename := "jobs.csv";
     up_Data := Some {| content := "rank,title"; readErr := None |} |}.

(** An update that refers to the previous revision by name. *)
Definition byName : UpdateParams :=
  {| up_Changes := revision "jobs, sixth edition" "jobs";
     up_DataFilename := ""; up_Data := None |}.

Definition fromURL : InitDatasetParams :=
  {| ip_Name := "jobs"; ip_URL := "http://example.com/jobs.csv";
     ip_DataFilename := ""; ip_Data := None;
     ip_MetadataFilename := ""; ip_Metadata := None |}.

(** An IPFS store over the in-memory one: everything can be fetched and
    pinned. *)
Definition ipfs : IpfsFilestore :=
  {| Fetch := fun _ fs => (None, fs); Pin := fun _ _ fs => (None, fs) |}.

(** A node that knows four peers, itself among them. *)
Definition me : Profile := {| pf_ID := "QmMe"; pf_Username := "me" |}.
Definition peerA : Profile := {| pf_ID := "QmA"; pf_Username := "a" |}.
Definition peerB : Profile := {| pf_ID := "QmB"; pf_Username := "b" |}.
Definition peerC : Profile := {| pf_ID := "QmC"; pf_Username := "c" |}.

Definition node : PeerRequests unit unit :=
  {| pr_qriNode := Some tt; pr_cli := None |}.

End MemMore.

(** * Properties *)

(** ** Go integers and errors *)

Lemma wrap_small z : Go.is_int z -> Go.wrap z = z.
Proof.
  unfold Go.is_int, Go.wrap, Go.MinInt, Go.MaxInt. intros H.
  rewrite Z.mod_small; lia.
Qed.

Lemma wrap_is_int z : Go.is_int (Go.wrap z).
Proof.
  unfold Go.is_int, Go.wrap, Go.MinInt, Go.MaxInt.
  pose proof (Z.mod_pos_bound (z + 2 ^ 63) (2 ^ 64) ltac:(lia)). lia.
Qed.

(** A wrapped value is zero only for multiples of [2^64]. *)
Lemma wrap_zero z : Go.wrap z = 0 -> exists k, z = k * 2 ^ 64.
Proof.
  unfold Go.wrap. intros H.
  exists ((z + 2 ^ 63) / 2 ^ 64).
  pose proof (Z.div_mod (z + 2 ^ 63) (2 ^ 64) ltac:(lia)). lia.
Qed.

Lemma error_eqb_eq a b : error_eqb a b = true <-> a = b.
Proof.
  destruct a, b; simpl; split; intros H; try reflexivity; try discriminate.
  - apply String.eqb_eq in H. now subst.
  - inversion H. apply String.eqb_refl.
Qed.

(** ** Pagination (core/params.go) *)

Section Pagination.
Import Params.

Lemma Page_size_pos lp : 0 < Limit lp -> Page_size lp = Limit lp.
Proof.
  intros H. unfold Page_size.
  destruct (Z.leb_spec (Limit lp) 0); [lia | reflexivity].
Qed.

(** C9, as amended.  [NewListParams] and [Page] convert exactly between
    1-indexed pages and offsets as long as [(page-1)*pageSize] fits an
    [int]: the limit is the page size, the offset is
    [(page-1)*pageSize], and [Page] gives back the page number
    [offset/size + 1 = page] and the size.  A page size or limit of at
    most 0 becomes [DefaultPageSize], a page below 1 counts as page 1,
    whose offset is 0, and a negative offset becomes 0 at the head of
    [DatasetRequests.List]. *)
Theorem NewListParams_Page_exact (orderBy : string) (page pageSize : Z) :
  Go.is_int page -> Go.is_int pageSize ->
  1 <= page -> 1 <= pageSize ->
  (page - 1) * pageSize <= Go.MaxInt ->
  let lp := NewListParams orderBy page pageSize in
  (Limit lp = pageSize /\ Offset lp = (page - 1) * pageSize
   /\ Page_number lp = Offset lp / Page_size lp + 1
   /\ Page_number lp = page /\ Page_size lp = pageSize)
  /\ (forall l, Limit l <= 0 -> Page_size l = DefaultPageSize)
  /\ (forall o pg ps, ps <= 0 -> Limit (NewListParams o pg ps) = DefaultPageSize)
  /\ (forall o pg ps, pg < 1 -> Offset (NewListParams o pg ps) = 0)
  /\ (forall l, Offset l < 0 -> Offset (ensureOffset l) = 0).
Proof.
  intros Hp Hs H1 H2 Hfit lp.
  assert (Hoff : Offset lp = (page - 1) * pageSize).
  { subst lp. unfold NewListParams. simpl.
    destruct (Z.ltb_spec page 1); [lia |].
    destruct (Z.leb_spec pageSize 0); [lia |].
    unfold Go.mul, Go.sub.
    rewrite (wrap_small (z := page - 1)).
    - apply wrap_small. unfold Go.is_int, Go.MinInt, Go.MaxInt in *. nia.
    - unfold Go.is_int, Go.MinInt, Go.MaxInt in *. lia. }
  assert (Hlim : Limit lp = pageSize).
  { subst lp. unfold NewListParams. simpl.
    destruct (Z.leb_spec pageSize 0); [lia | reflexivity]. }
  assert (Hsize : Page_size lp = pageSize).
  { rewrite Page_size_pos; lia. }
  assert (Hquot : Z.quot (Offset lp) (Page_size lp) = page - 1).
  { rewrite Hoff, Hsize. apply Z.quot_mul. lia. }
  assert (Hnum : Page_number lp = page).
  { unfold Page_number, Go.add, Go.quo. rewrite Hquot.
    rewrite (wrap_small (z := page - 1)).
    - rewrite wrap_small; [lia |].
      unfold Go.is_int, Go.MinInt, Go.MaxInt in *. lia.
    - unfold Go.is_int, Go.MinInt, Go.MaxInt in *. lia. }
  split; [repeat split; auto |].
  - rewrite Hnum, Hoff, Hsize. rewrite Z.div_mul; lia.
  - split; [| split; [| split]].
    + intros l Hl. unfold Page_size.
      destruct (Z.leb_spec (Limit l) 0); [reflexivity | lia].
    + intros o pg ps Hps. unfold NewListParams. simpl.
      destruct (Z.leb_spec ps 0); [reflexivity | lia].
    + intros o pg ps Hpg. unfold NewListParams. simpl.
      destruct (Z.ltb_spec pg 1); [| lia].
      reflexivity.
    + intros l Hl. unfold ensureOffset.
      destruct (Z.ltb_spec (Offset l) 0); [reflexivity | lia].
Qed.

End Pagination.

(** ** The history walk (HistoryRequests.Log) *)

Section History.
Context {T : Types} {L : Libs} {B : Backend}.

Lemma sub_wrap a : Go.sub (Go.wrap a) 1 = Go.wrap (a - 1).
Proof.
  unfold Go.sub, Go.wrap. f_equal.
  replace ((a + 2 ^ 63) mod 2 ^ 64 - 2 ^ 63 - 1 + 2 ^ 63)
    with ((a + 2 ^ 63) mod 2 ^ 64 - 1) by lia.
  rewrite Zminus_mod_idemp_l. f_equal. lia.
Qed.

Lemma Chain_nonempty fs path refs : Chain fs path refs -> (1 <= length refs)%nat.
Proof. intros H. destruct H; simpl; lia. Qed.

(** The loop ends within as many turns as the chain has records. *)
Lemma Log_loop_total fs path refs :
  Chain fs path refs ->
  forall fuel limit log, (length refs <= fuel)%nat ->
  exists out, Log_loop fuel limit path log fs = Some out.
Proof.
  induction 1 as [fs fs' path ds Hload Hroot
                 | fs fs' path ds rest Hload Hprev Hrest IH];
    intros fuel limit log Hfuel;
    (destruct fuel as [| fuel]; [simpl in Hfuel; lia |]);
    simpl; rewrite Hload.
  - unfold Key_String in Hroot. rewrite Hroot. simpl.
    rewrite orb_true_r. eauto.
  - destruct ((Go.sub limit 1 =? 0)
              || (Key_String (ds_Previous ds) =? "")%string); [eauto |].
    apply IH. simpl in Hfuel. lia.
Qed.

(** The loop returns the first [k] records of the chain when the counter
    first reaches zero at the [k]-th record, or all of them when it never
    does. *)
Lemma Log_loop_firstn fs path refs :
  Chain fs path refs ->
  forall (k fuel : nat) (limit : Z) (log : list DatasetRef),
    (1 <= k <= length refs)%nat -> (k <= fuel)%nat ->
    (forall j, 1 <= j < Z.of_nat k -> Go.wrap (limit - j) <> 0) ->
    (k = length refs \/ Go.wrap (limit - Z.of_nat k) = 0) ->
    exists fs', Log_loop fuel limit path log fs
                = Some (Next (log ++ firstn k refs)%list, fs').
Proof.
  induction 1 as [fs fs' path ds Hload Hroot
                 | fs fs' path ds rest Hload Hprev Hrest IH];
    intros k fuel limit log Hk Hfuel Hbefore Hat;
    (destruct fuel as [| fuel]; [lia |]);
    simpl; rewrite Hload.
  - simpl in Hk. assert (k = 1%nat) by lia. subst k.
    unfold Key_String in Hroot. rewrite Hroot. simpl.
    rewrite orb_true_r. eauto.
  - pose proof (Chain_nonempty Hrest) as Hlen.
    rewrite (proj2 (String.eqb_neq _ _) Hprev), orb_false_r.
    destruct (Nat.eq_dec k 1) as [-> | Hk1].
    + destruct Hat as [Hat | Hat]; [simpl in Hat; lia |].
      unfold Go.sub. simpl in Hat. rewrite Hat. simpl. eauto.
    + assert (Hne : Go.sub limit 1 <> 0) by (apply Hbefore; lia).
      apply Z.eqb_neq in Hne. rewrite Hne.
      destruct k as [| k]; [lia |].
      destruct (IH k fuel (Go.sub limit 1) (log ++ [refAt path ds])%list)
        as [fs1 Hrun].
      * simpl in Hk. lia.
      * lia.
      * intros j Hj.
        replace (Go.wrap (Go.sub limit 1 - j)) with (Go.wrap (limit - (j + 1))).
        { apply Hbefore. lia. }
        unfold Go.sub, Go.wrap. f_equal.
        replace ((limit - 1 + 2 ^ 63) mod 2 ^ 64 - 2 ^ 63 - j + 2 ^ 63)
          with ((limit - 1 + 2 ^ 63) mod 2 ^ 64 - j) by lia.
        rewrite Zminus_mod_idemp_l. f_equal. lia.
      * destruct Hat as [Hat | Hat]; [left; simpl in Hat; lia | right].
        replace (Go.wrap (Go.sub limit 1 - Z.of_nat k))
          with (Go.wrap (limit - Z.of_nat (S k))); [exact Hat |].
        unfold Go.sub, Go.wrap. f_equal.
        replace ((limit - 1 + 2 ^ 63) mod 2 ^ 64 - 2 ^ 63 - Z.of_nat k + 2 ^ 63)
          with ((limit - 1 + 2 ^ 63) mod 2 ^ 64 - Z.of_nat k) by lia.
        rewrite Zminus_mod_idemp_l. f_equal. lia.
      * exists fs1. rewrite Hrun. simpl. rewrite <- app_assoc. reflexivity.
Qed.

(** The loop stops at the first load that fails, unless the counter
    stopped it before. *)
Lemma Log_loop_broken fs path n e :
  Broken fs path n e ->
  forall (fuel : nat) (limit : Z) (log : list DatasetRef),
    (n < fuel)%nat ->
    (forall j, 1 <= j <= Z.of_nat n -> Go.wrap (limit - j) <> 0) ->
    exists fs', Log_loop fuel limit path log fs = Some (Fail e, fs').
Proof.
  induction 1 as [fs fs' path e Hload
                 | fs fs' path ds n e Hload Hprev Hrest IH];
    intros fuel limit log Hfuel Hbefore;
    (destruct fuel as [| fuel]; [lia |]);
    simpl; rewrite Hload.
  - eauto.
  - rewrite (proj2 (String.eqb_neq _ _) Hprev), orb_false_r.
    assert (Hne : Go.sub limit 1 <> 0) by (apply Hbefore; lia).
    apply Z.eqb_neq in Hne. rewrite Hne.
    apply IH; [lia |].
    intros j Hj.
    replace (Go.wrap (Go.sub limit 1 - j)) with (Go.wrap (limit - (j + 1))).
    { apply Hbefore. lia. }
    unfold Go.sub, Go.wrap. f_equal.
    replace ((limit - 1 + 2 ^ 63) mod 2 ^ 64 - 2 ^ 63 - j + 2 ^ 63)
      with ((limit - 1 + 2 ^ 63) mod 2 ^ 64 - j) by lia.
    rewrite Zminus_mod_idemp_l. f_equal. lia.
Qed.

(** [Log] on a handler bound to a repository, past the check of the path. *)
Lemma Log_unfold d fuel lp path res w :
  hr_cli d = None -> hr_repo d = Some LocalRepo -> Key_String path <> "" ->
  Log d fuel (logParams lp path) res w
  = match Log_loop fuel (Params.Limit lp) path [] (store w) with
    | Some (Next log, fs) => Some (Returned log None, set_store fs w)
    | Some (Fail e, fs) => Some (Returned res (Some e), set_store fs w)
    | Some (Panic msg, fs) => Some (Panicked msg, set_store fs w)
    | None => None
    end.
Proof.
  intros Hcli Hrepo Hpath. unfold Log, Log_local. rewrite Hcli, Hrepo. simpl.
  rewrite (proj2 (String.eqb_neq _ _) Hpath).
  destruct (Log_loop fuel (Params.Limit lp) path [] (store w))
    as [[[log | e | msg] fs] |]; reflexivity.
Qed.


(** C8.  When the records reached from the starting path by following
    [Previous] form a finite chain ending at a root and every load
    succeeds, [Log] returns for every [Limit], within as many turns of
    its loop as the chain has records; with a [Limit] of zero or below
    the walk ends at the root only, and returns the whole chain. *)
Theorem Log_terminates (d : HistoryRequests) (w : World) (path : Key)
        (refs : list DatasetRef) :
  Chain (store w) path refs ->
  forall (lp : Params.ListParams) (fuel : nat) (res : list DatasetRef),
    (length refs <= fuel)%nat ->
    (exists out, Log d fuel (logParams lp path) res w = Some out)
    /\ (hr_cli d = None -> hr_repo d = Some LocalRepo ->
        Key_String path <> "" ->
        Go.is_int (Params.Limit lp) -> Params.Limit lp <= 0 ->
        Z.of_nat (length refs) < 2 ^ 63 ->
        exists w', Log d fuel (logParams lp path) res w
                   = Some (Returned refs None, w')).
Proof.
  intros Hchain lp fuel res Hfuel. split.
  - unfold Log, Log_local.
    destruct (hr_cli d); [eauto |].
    simpl. destruct (Key_String path =? "")%string; [eauto |].
    destruct (hr_repo d); [| eauto].
    pose proof (Log_loop_total Hchain) as Hk.
    destruct (Hk fuel (Params.Limit lp) [] Hfuel) as [[s fs] Hrun].
    rewrite Hrun. eauto.
  - intros Hcli Hrepo Hpath Hint Hlim Hlen.
    rewrite Log_unfold by assumption.
    pose proof (Chain_nonempty Hchain) as Hne.
    pose proof (Log_loop_firstn Hchain) as Hk.
    destruct (Hk (length refs) fuel (Params.Limit lp) []) as [fs1 Hrun].
    + lia.
    + lia.
    + intros j Hj Hzero. apply wrap_zero in Hzero. destruct Hzero as [m Hm].
      unfold Go.is_int, Go.MinInt, Go.MaxInt in Hint. lia.
    + now left.
    + rewrite Hrun. simpl. rewrite firstn_all. eauto.
Qed.

End History.

(** ** Listing (DatasetRequests.List) *)

Section Listing.
Context {T : Types} {L : Libs} {B : Backend}.

Lemma set_store_same (w : World) : set_store (store w) w = w.
Proof. destruct w. reflexivity. Qed.

(** One entry: a first load, and a second one exactly when the first
    failed. *)
Lemma List_load_spec (ref : DatasetRef) (w : World) :
  exists r fs1,
    Loaded (ref_Path ref) (store w) r fs1
    /\ List_load ref w
       = match r with
         | inl ds => (Next ds, set_store fs1 w)
         | inr e => (Fail (loadError ref e), set_store fs1 w)
         end.
Proof.
  unfold List_load, bind, loadDataset.
  destruct (LoadDataset (ref_Path ref) (store w)) as [[ds | e1] fs1] eqn:H1.
  - exists (inl ds), fs1. split; [now apply Loaded_first | reflexivity].
  - simpl.
    destruct (LoadDataset (ref_Path ref) fs1) as [r fs2] eqn:H2.
    exists r, fs2. split; [eapply Loaded_retry; eauto |].
    destruct r; reflexivity.
Qed.

(** The loop hydrates the entries before index [limit] and leaves the
    others as the Namestore gave them. *)
Lemma List_range_spec (limit : Z) (replies : list DatasetRef) :
  forall (i : Z) (w : World),
    exists h fs2,
      Hydrated (firstn (Z.to_nat (limit - i)) replies) (store w) h fs2
      /\ List_range limit i replies w
         = match h with
           | inl l => (Next (l ++ skipn (Z.to_nat (limit - i)) replies)%list,
                       set_store fs2 w)
           | inr e => (Fail e, set_store fs2 w)
           end.
Proof.
  induction replies as [| ref rest IH]; intros i w.
  - exists (inl []), (store w). rewrite firstn_nil, skipn_nil, set_store_same.
    split; [constructor | reflexivity].
  - simpl List_range. destruct (Z.leb_spec limit i) as [Hle | Hlt].
    + replace (Z.to_nat (limit - i)) with 0%nat by lia.
      exists (inl []), (store w). rewrite set_store_same.
      split; [constructor | reflexivity].
    + replace (Z.to_nat (limit - i)) with (S (Z.to_nat (limit - (i + 1)))) by lia.
      destruct (List_load_spec ref w) as (r & fs1 & Hload & Hrun).
      unfold bind at 1. rewrite Hrun.
      destruct r as [ds | e].
      * destruct (IH (i + 1) (set_store fs1 w)) as (h & fs2 & Hrest & Hloop).
        unfold bind at 1. rewrite Hloop. simpl in Hrest.
        destruct h as [l | e].
        -- exists (inl (setDataset ref ds :: l)), fs2.
           split; [eapply Hydrated_cons; eauto | reflexivity].
        -- exists (inr e), fs2.
           split; [eapply Hydrated_later; eauto | reflexivity].
      * exists (inr (loadError ref e)), fs1.
        split; [now apply Hydrated_failed | reflexivity].
Qed.

(** Every hydrated entry is the one listed, with a dataset body. *)
Lemma Hydrated_bodies refs fs l fs' :
  Hydrated refs fs (inl l) fs' ->
  Forall2 (fun ref ref' => exists ds, ref' = setDataset ref ds) refs l.
Proof.
  intros H. remember (inl l) as h eqn:Hh. revert l Hh.
  induction H; intros l' Hh; inversion Hh; subst; constructor; eauto.
Qed.


End Listing.

(** ** Tactics for running a method body *)

Ltac unfold_steps :=
  repeat progress
    unfold exec, try, tryPtr, check, checkRaw, useRepo,
      putName, deleteName, getPath, getName, putDataset, getDataset, hasPath,
      put, loadDataset, saveDataset, httpGet, now, bind, ret, fail, panic in *.

(** Case analysis on the first test met in a hypothesis. *)
Ltac destruct_innermost x :=
  lazymatch x with
  | context [match ?y with _ => _ end] => destruct_innermost y
  | _ => let E := fresh "E" in destruct x eqn:E
  end.

Ltac split_run H :=
  match type of H with
  | context [match ?x with _ => _ end] =>
    destruct_innermost x; simpl in H; try discriminate H
  end.

Lemma pair_fst {A C : Type} (t : A * C) (a : A) : fst t = a -> t = (a, snd t).
Proof. destruct t. simpl. congruence. Qed.

Lemma pair_snd {A C : Type} (t : A * C) (c : C) : snd t = c -> t = (fst t, c).
Proof. destruct t. simpl. congruence. Qed.

(** ** Renaming (DatasetRequests.Rename) *)

Section Renaming.
Context {T : Types} {L : Libs} {B : Backend}.

Lemma Rename_free_spec (g : Key * option error) :
  Rename_free g = true <-> snd g = Some ErrNotFound.
Proof.
  unfold Rename_free. destruct (snd g) as [e |]; split; intros H;
    try discriminate.
  - apply error_eqb_eq in H. now subst.
  - inversion H. reflexivity.
Qed.

(** C6.  [Rename] fails when the current name is empty, when the new name
    is not valid, when the new name already has a binding and when the
    current name does not resolve; in each of these cases the repository,
    and with it the binding of the current name, is left as it was.  When
    it succeeds the current name is no longer bound, the new name is
    bound to the path the current name had, and the dataset loaded at
    that path is returned under the new name. *)
Theorem Rename_spec (r : DatasetRequests) (p : RenameParams)
        (res : DatasetRef) (w : World) :
  dr_cli r = None -> dr_repo r = Some LocalRepo -> NamestoreLaws B ->
  (rp_Current p = "" ->
   Rename r p res w
   = (Returned res (Some (Errorf "current name is required to rename a dataset")), w))
  /\ (forall e, rp_Current p <> "" -> ValidName (rp_New p) = Some e ->
      Rename r p res w = (Returned res (Some e), w))
  /\ (rp_Current p <> "" -> ValidName (rp_New p) = None ->
      snd (GetPath (rp_New p) (names w)) = None ->
      Rename r p res w
      = (Returned res (Some (Errorf ("name '" ++ rp_New p ++ "' already exists"))), w))
  /\ (forall e, rp_Current p <> "" -> ValidName (rp_New p) = None ->
      snd (GetPath (rp_New p) (names w)) = Some ErrNotFound ->
      snd (GetPath (rp_Current p) (names w)) = Some e ->
      Rename r p res w
      = (Returned res (Some (Errorf ("error getting dataset: " ++ Error e))), w))
  /\ (forall ref w', Rename r p res w = (Returned ref None, w') ->
      exists path ds,
        GetPath (rp_Current p) (names w) = (path, None)
        /\ LoadDataset path (store w) = (inl ds, store w')
        /\ ref = {| ref_Name := rp_New p; ref_Path := path; ref_Dataset := Some ds |}
        /\ GetPath (rp_New p) (names w') = (path, None)
        /\ snd (GetPath (rp_Current p) (names w')) = Some ErrNotFound).
Proof.
  intros Hcli Hrepo Laws.
  unfold Rename, Rename_body. rewrite Hcli, Hrepo.
  repeat split.
  - intros Hcur. unfold_steps. rewrite Hcur. reflexivity.
  - intros e Hcur Hval. unfold_steps.
    rewrite (proj2 (String.eqb_neq _ _) Hcur), Hval. reflexivity.
  - intros Hcur Hval Hnew. unfold_steps.
    rewrite (proj2 (String.eqb_neq _ _) Hcur), Hval. simpl.
    unfold Rename_free. rewrite Hnew. reflexivity.
  - intros e Hcur Hval Hnew Hget. unfold_steps.
    rewrite (proj2 (String.eqb_neq _ _) Hcur), Hval. simpl.
    rewrite (proj2 (Rename_free_spec _) Hnew). simpl.
    rewrite Hget. reflexivity.
  - intros ref w' Hrun. unfold_steps.
    destruct (rp_Current p =? "")%string eqn:Hcur; [discriminate Hrun |].
    destruct (ValidName (rp_New p)) eqn:Hval; [discriminate Hrun |].
    simpl in Hrun.
    destruct (Rename_free (GetPath (rp_New p) (names w))) eqn:Hfree;
      [| discriminate Hrun].
    apply Rename_free_spec in Hfree. simpl in Hrun.
    destruct (GetPath (rp_Current p) (names w)) as [path [e |]] eqn:Hget;
      [discriminate Hrun |].
    simpl in Hrun.
    destruct (DeleteName (rp_Current p) (names w)) as [[e |] ns1] eqn:Hdel;
      [discriminate Hrun |].
    simpl in Hrun.
    destruct (PutName (rp_New p) path ns1) as [[e |] ns2] eqn:Hput;
      [discriminate Hrun |].
    simpl in Hrun.
    destruct (LoadDataset path (store w)) as [[ds | e] fs1] eqn:Hload;
      [| discriminate Hrun].
    simpl in Hrun. inversion Hrun; subst; clear Hrun. simpl.
    exists path, ds.
    split; [reflexivity |]. split; [exact Hload |]. split; [reflexivity |].
    split.
    + eapply PutName_GetPath; eauto.
    + assert (Hne : rp_Current p <> rp_New p).
      { intros Heq. rewrite Heq in Hget. rewrite Hget in Hfree.
        discriminate Hfree. }
      erewrite PutName_other by eauto.
      eapply DeleteName_GetPath; eauto.
Qed.

End Renaming.

(** ** Creating a dataset (DatasetRequests.InitDataset) *)

Section Init.
Context {T : Types} {L : Libs} {B : Backend}.

Lemma InitDataset_source_names p w s w' :
  InitDataset_source p w = (s, w') -> names w' = names w.
Proof.
  unfold InitDataset_source. unfold_steps. intros H.
  repeat split_run H; inversion H; subst; reflexivity.
Qed.

Lemma InitDataset_source_filename p w src w' :
  InitDataset_source p w = (Next src, w') ->
  snd src = InitDataset_filename p.
Proof.
  unfold InitDataset_source, InitDataset_filename. unfold_steps. intros H.
  repeat split_run H; inversion H; subst; reflexivity.
Qed.

(** A run of [InitDataset] that returns nil went through every step: the
    name it bound, the key it bound it to, and the record read back. *)
Lemma InitDataset_success r p w ref w' :
  InitDataset_body r p w = (Next ref, w') ->
  exists format ds,
    ExtensionDataFormat (InitDataset_filename p) = (format, None)
    /\ PutName (InitDataset_name p (InitDataset_filename p)) (ref_Path ref)
               (names w) = (None, names w')
    /\ GetDataset (ref_Path ref) (datasets w') = inl ds
    /\ ref = {| ref_Name := ip_Name p; ref_Path := ref_Path ref;
                ref_Dataset := Some ds |}.
Proof.
  unfold InitDataset_body. intros H.
  unfold bind at 1 in H. unfold useRepo in H.
  destruct (dr_repo r); [| discriminate H]. simpl in H.
  unfold bind at 1 in H.
  destruct (InitDataset_source p w) as [[src | e | msg] w1] eqn:Hsrc;
    try discriminate H.
  pose proof (InitDataset_source_names _ _ Hsrc) as Hn1.
  pose proof (InitDataset_source_filename _ _ Hsrc) as Hfile.
  rewrite Hfile in H. clear Hsrc Hfile.
  unfold_steps.
  destruct (ExtensionDataFormat (InitDataset_filename p)) as [format ferr] eqn:Hfmt.
  repeat split_run H.
  all: inversion H; subst; clear H; simpl in *.
  all: exists format; eexists.
  all: repeat match goal with
              | E : (_, _) = (_, _) |- _ => inversion E; subst; clear E
              end; simpl in *.
  all: rewrite <- Hn1.
  all: repeat split; eauto using pair_fst.
Qed.

(** A run of [InitDataset] that returns an error either left the
    Namestore as it was, or had bound the name and then failed to read the
    record back. *)
Lemma InitDataset_failure r p w e w' :
  NamestoreLaws B ->
  InitDataset_body r p w = (Fail e, w') ->
  names w' = names w
  \/ exists name dskey e0,
      PutName name dskey (names w) = (None, names w')
      /\ GetDataset dskey (datasets w') = inr e0
      /\ e = Errorf ("error reading dataset: " ++ Error e0).
Proof.
  intros Laws. unfold InitDataset_body. intros H.
  unfold bind at 1 in H. unfold useRepo in H.
  destruct (dr_repo r); [| discriminate H]. simpl in H.
  unfold bind at 1 in H.
  destruct (InitDataset_source p w) as [[src | e1 | msg] w1] eqn:Hsrc;
    try discriminate H.
  2: { inversion H; subst. left. eapply InitDataset_source_names; eauto. }
  pose proof (InitDataset_source_names _ _ Hsrc) as Hn1.
  clear Hsrc. unfold_steps.
  repeat split_run H.
  all: inversion H; subst; clear H; simpl.
  all: try solve [left; exact Hn1].
  all: try solve [left; rewrite <- Hn1;
                  eapply PutName_failed; eauto using pair_fst].
  all: right; do 3 eexists; rewrite <- Hn1;
    (split; [apply pair_fst; eassumption |]); split; eauto.
Qed.

(** C4, as amended.  When [InitDataset] returns an error, the result is
    left as it was and either no name has been bound (the Namestore is as
    before the call, whatever was written to the stores), or the error is
    that of reading the record back after the name was bound, in which
    case the new binding stays. *)
Theorem InitDataset_error_binding (r : DatasetRequests) (p : InitDatasetParams)
        (res reply : DatasetRef) (w w' : World) (e : error) :
  dr_cli r = None -> NamestoreLaws B ->
  InitDataset r p res w = (Returned reply (Some e), w') ->
  reply = res
  /\ (names w' = names w
      \/ exists name dskey e0,
          PutName name dskey (names w) = (None, names w')
          /\ GetPath name (names w') = (dskey, None)
          /\ GetDataset dskey (datasets w') = inr e0
          /\ e = Errorf ("error reading dataset: " ++ Error e0)).
Proof.
  intros Hcli Laws H. unfold InitDataset in H. rewrite Hcli in H.
  unfold exec in H.
  destruct (InitDataset_body r p w) as [[ref | e1 | msg] w1] eqn:Hbody;
    inversion H; subst; clear H.
  split; [reflexivity |].
  destruct (InitDataset_failure _ _ _ Laws Hbody)
    as [Hsame | (name & dskey & e0 & Hput & Hget & He)].
  - now left.
  - right. exists name, dskey, e0. repeat split; auto.
    eapply PutName_GetPath; eauto.
Qed.

(** Runs the head of [InitDataset] for a readable stream and a name that
    is empty or valid, up to the detection of the format. *)
Ltac init_head Hrepo Hurl Hdata Hread Hname :=
  unfold InitDataset_body, InitDataset_source;
  rewrite Hrepo, Hurl, Hdata; unfold_steps; simpl; rewrite Hread;
  let Hn := fresh "Hn" in
  destruct Hname as [Hn | Hn]; rewrite Hn; simpl;
  [| match goal with
     | |- context [negb ?c] => destruct (negb c); simpl
     end].


(** C10.  When [InitDataset] succeeds for a caller who gave no name, the
    reference it returns carries the empty name, while the name bound to
    the new path in the Namestore is the one derived from the file
    name. *)
Theorem InitDataset_returns_given_name (r : DatasetRequests)
        (p : InitDatasetParams) (res ref : DatasetRef) (w w' : World) :
  dr_cli r = None -> NamestoreLaws B ->
  (forall f, Go.Ext f = "" -> snd (ExtensionDataFormat f) <> None) ->
  InitDataset r p res w = (Returned ref None, w') ->
  ip_Name p = "" ->
  ref_Name ref = ""
  /\ InitDataset_filename p <> ""
  /\ PutName (Camelize (InitDataset_filename p)) (ref_Path ref) (names w)
     = (None, names w')
  /\ GetPath (Camelize (InitDataset_filename p)) (names w')
     = (ref_Path ref, None).
Proof.
  intros Hcli Laws Hext Hrun Hname.
  unfold InitDataset in Hrun. rewrite Hcli in Hrun. unfold exec in Hrun.
  destruct (InitDataset_body r p w) as [[ref1 | e1 | msg] w1] eqn:Hbody;
    inversion Hrun; subst; clear Hrun.
  destruct (InitDataset_success _ _ _ Hbody)
    as (format & ds & Hfmt & Hput & Hget & Href).
  assert (Hfile : InitDataset_filename p <> "").
  { intros Hempty. apply (Hext (InitDataset_filename p)).
    - rewrite Hempty. reflexivity.
    - rewrite Hfmt. reflexivity. }
  unfold InitDataset_name in Hput.
  rewrite Hname, (proj2 (String.eqb_neq _ _) Hfile) in Hput. simpl in Hput.
  repeat split; auto.
  - rewrite Href. simpl. exact Hname.
  - eapply PutName_GetPath; eauto.
Qed.

End Init.

(** ** Adding a revision (DatasetRequests.Update) *)

Section Updating.
Context {T : Types} {L : Libs} {B : Backend}.

Lemma Update_link_plain (prevpath : Key) :
  Go.HasSuffix (Key_String prevpath) PackageFileDataset = false ->
  Update_link prevpath = prevpath.
Proof. intros H. unfold Update_link. rewrite H. reflexivity. Qed.


End Updating.

(** ** Remote dispatch *)

Section Dispatch.
Context {T : Types} {L : Libs} {B : Backend}.

(** With a client, these methods make one call, to the remote method of
    their own name, with their own arguments, and return what it
    returns. *)
Lemma remote_forwarding (c : Client) (w : World) :
  let r := {| dr_repo := None; dr_cli := Some c |} in
  (forall p res, List r p res w = (p, remote c "DatasetRequests.List" p res w))
  /\ (forall p res, Get r p res w = remote c "DatasetRequests.Get" p res w)
  /\ (forall p res, InitDataset r p res w
                    = remote c "DatasetRequests.InitDataset" p res w)
  /\ (forall p res, Update r p res w = remote c "DatasetRequests.Update" p res w)
  /\ (forall p res, Rename r p res w = remote c "DatasetRequests.Rename" p res w)
  /\ (forall fuel p res,
         Log {| hr_repo := None; hr_cli := Some c |} fuel p res w
         = Some (remote c "HistoryRequests.Log" p res w)).
Proof. repeat split. Qed.

(** C1, at the two places where the code leaves it.  [Delete] with a
    client calls the remote method [DatasetRequests.List], not
    [DatasetRequests.Delete]; and [NewHistoryRequests] drops the client it
    is given, so that [Log] on the handler it builds never reaches the
    remote side: it runs the local code on a nil repository. *)
Theorem Delete_and_Log_dispatch (c : Client) (w : World) :
  (forall p ok,
      Delete {| dr_repo := None; dr_cli := Some c |} p ok w
      = (p, remote c "DatasetRequests.List" p ok w))
  /\ "DatasetRequests.List" <> "DatasetRequests.Delete"
  /\ NewHistoryRequests None (Some c)
     = Some {| hr_repo := None; hr_cli := None |}
  /\ (forall fuel params res,
         Log {| hr_repo := None; hr_cli := None |} fuel params res w
         = Some (if (Key_String (lp_Path params) =? "")%string
                 then Returned res (Some (Errorf "path is required"))
                 else Panicked nilDeref, w)).
Proof.
  split; [reflexivity |]. split; [discriminate |]. split; [reflexivity |].
  intros fuel params res.
  unfold Log, Log_local. simpl.
  destruct (Key_String (lp_Path params) =? "")%string; reflexivity.
Qed.

End Dispatch.

(** ** The in-memory Namestore keeps the laws *)

Section MemLaws.
Import Mem.

Lemma lookup_app {V : Type} (k : string) (l l' : list (string * V)) :
  lookup k (l ++ l') = match lookup k l with
                       | Some v => Some v
                       | None => lookup k l'
                       end.
Proof.
  induction l as [| [k' v] l IH]; simpl; [reflexivity |].
  destruct (k =? k')%string; [reflexivity | exact IH].
Qed.

Lemma lookup_filter_same (n : string) (s : list (string * Key)) :
  lookup n (filter (fun b => negb (fst b =? n)%string) s) = None.
Proof.
  induction s as [| [k v] s IH]; simpl; [reflexivity |].
  destruct (k =? n)%string eqn:E; simpl; [exact IH |].
  rewrite String.eqb_sym, E. exact IH.
Qed.

Lemma lookup_filter_other (n m : string) (s : list (string * Key)) :
  m <> n ->
  lookup m (filter (fun b => negb (fst b =? n)%string) s) = lookup m s.
Proof.
  intros Hne. induction s as [| [k v] s IH]; simpl; [reflexivity |].
  destruct (k =? n)%string eqn:E; simpl.
  - apply String.eqb_eq in E. subst k.
    rewrite (proj2 (String.eqb_neq _ _) Hne). exact IH.
  - rewrite IH. reflexivity.
Qed.

Lemma Mem_laws : @NamestoreLaws types repo.
Proof.
  constructor; simpl.
  - intros n p s s' H.
    destruct (negb (validName n)); [discriminate H |].
    destruct (lookup n s) eqn:E; inversion H; subst.
    rewrite lookup_app, E. simpl. rewrite String.eqb_refl. reflexivity.
  - intros n p s s' m H Hne.
    destruct (negb (validName n)); [discriminate H |].
    destruct (lookup n s) eqn:E; inversion H; subst.
    rewrite lookup_app. simpl.
    rewrite (proj2 (String.eqb_neq _ _) Hne).
    destruct (lookup m s); reflexivity.
  - intros n p s e s' H.
    destruct (negb (validName n)); [now inversion H |].
    destruct (lookup n s); now inversion H.
  - intros n s s' H.
    destruct (lookup n s); inversion H; subst.
    rewrite lookup_filter_same. reflexivity.
  - intros n s s' m H Hne.
    destruct (lookup n s); inversion H; subst.
    rewrite lookup_filter_other by assumption. reflexivity.
  - intros n s e s' H.
    destruct (lookup n s); now inversion H.
Qed.

Lemma Mem_extension (f : string) :
  Go.Ext f = "" -> snd (@ExtensionDataFormat types libs f) <> None.
Proof. intros H. simpl. rewrite H. discriminate. Qed.

End MemLaws.

(** * The handlers at work on the in-memory repository *)

Section Examples.
Import Mem.
#[local] Existing Instance types.
#[local] Existing Instance libs.
#[local] Existing Instance repo.

Lemma jobs_chain : Chain (store jobsWorld) path3 history4.
Proof.
  unfold history4.
  eapply Chain_link; [reflexivity | discriminate |].
  eapply Chain_link; [reflexivity | discriminate |].
  eapply Chain_link; [reflexivity | discriminate |].
  eapply Chain_root; reflexivity.
Defined.

Lemma gap_broken :
  Broken (store gapWorld) path3 2
         (Errorf "error getting file bytes: datastore: key not found").
Proof.
  eapply Broken_later; [reflexivity | discriminate |].
  eapply Broken_later; [reflexivity | discriminate |].
  eapply Broken_here. reflexivity.
Defined.

(** The page conversion on page 3 of size 10. *)
Lemma NewListParams_Page_exact_witness :
  Go.is_int 3 /\ Go.is_int 10 /\ 1 <= 3 /\ 1 <= 10
  /\ (3 - 1) * 10 <= Go.MaxInt
  /\ Params.Offset (Params.NewListParams "created" 3 10) = (3 - 1) * 10
  /\ Params.Page_number (Params.NewListParams "created" 3 10) = 3.
Proof.
  assert (H3 : Go.is_int 3) by (unfold Go.is_int, Go.MinInt, Go.MaxInt; lia).
  assert (H10 : Go.is_int 10) by (unfold Go.is_int, Go.MinInt, Go.MaxInt; lia).
  assert (Hfit : (3 - 1) * 10 <= Go.MaxInt) by (unfold Go.MaxInt; lia).
  repeat (split; [assumption || lia |]).
  destruct (@NewListParams_Page_exact "created" 3 10 H3 H10
              ltac:(lia) ltac:(lia) Hfit)
    as ((_ & Hoff & _ & Hnum & _) & _).
  split; assumption.
Defined.

(** C9 fails for a product that does not fit an [int]: page [2^62+1] of
    size 4 gets offset 0, and [Page] makes it page 1.  And [Page] takes a
    negative offset as it is: offset -20 with limit 10 is page -1. *)
Lemma NewListParams_overflow :
  Go.is_int (2 ^ 62 + 1) /\ Go.is_int 4 /\ 1 <= 2 ^ 62 + 1 /\ 1 <= 4
  /\ Params.Offset (Params.NewListParams "" (2 ^ 62 + 1) 4) = 0
  /\ Params.Offset (Params.NewListParams "" (2 ^ 62 + 1) 4)
     <> (2 ^ 62 + 1 - 1) * 4
  /\ Params.Page_number (Params.NewListParams "" (2 ^ 62 + 1) 4) = 1
  /\ Params.Page_number (Params.NewListParams "" (2 ^ 62 + 1) 4) <> 2 ^ 62 + 1
  /\ Params.Page_number (Params.mkListParams "" 10 (-20)) = -1.
Proof.
  unfold Go.is_int, Go.MinInt, Go.MaxInt.
  repeat split; try lia; vm_compute; congruence.
Qed.


Lemma Log_terminates_witness :
  Chain (store jobsWorld) path3 history4 /\ (length history4 <= 4)%nat
  /\ (exists out, Log history 4 (logParams (Params.mkListParams "" (-3) 0) path3)
                      [] jobsWorld = Some out)
  /\ (exists w', Log history 4 (logParams (Params.mkListParams "" (-3) 0) path3)
                     [] jobsWorld = Some (Returned history4 None, w')).
Proof.
  split; [exact jobs_chain |]. split; [simpl; lia |].
  destruct (@Log_terminates types libs repo history jobsWorld path3 history4
              jobs_chain (Params.mkListParams "" (-3) 0) 4%nat []
              ltac:(simpl; lia)) as [Hany Hall].
  split; [exact Hany |].
  apply Hall;
    [ reflexivity | reflexivity | discriminate
    | unfold Go.is_int, Go.MinInt, Go.MaxInt; simpl; lia
    | simpl; lia | simpl; lia ].
Defined.


Lemma Rename_spec_witness :
  dr_cli local = None /\ dr_repo local = Some LocalRepo
  /\ @NamestoreLaws types repo
  /\ exists ref w' path ds,
      Rename local (mkRenameParams "jobs" "work") zeroDatasetRef jobsWorld
      = (Returned ref None, w')
      /\ GetPath "jobs" (names jobsWorld) = (path, None)
      /\ LoadDataset path (store jobsWorld) = (inl ds, store w')
      /\ ref = {| ref_Name := "work"; ref_Path := path; ref_Dataset := Some ds |}
      /\ GetPath "work" (names w') = (path, None)
      /\ snd (GetPath "jobs" (names w')) = Some ErrNotFound.
Proof.
  split; [reflexivity |]. split; [reflexivity |]. split; [exact Mem_laws |].
  destruct (@Rename_spec types libs repo local (mkRenameParams "jobs" "work")
              zeroDatasetRef jobsWorld eq_refl eq_refl Mem_laws)
    as (_ & _ & _ & _ & Hok).
  assert (Hrun : exists ref w',
             Rename local (mkRenameParams "jobs" "work") zeroDatasetRef
                    jobsWorld = (Returned ref None, w'))
    by (eexists _, _; reflexivity).
  destruct Hrun as (ref & w' & Hrun).
  destruct (Hok _ _ Hrun) as (path & ds & H).
  exists ref, w', path, ds. split; [exact Hrun | exact H].
Defined.

Lemma InitDataset_error_binding_witness :
  dr_cli local = None /\ @NamestoreLaws types repo
  /\ exists reply e w',
      InitDataset local jobs zeroDatasetRef unreadableWorld
      = (Returned reply (Some e), w')
      /\ reply = zeroDatasetRef
      /\ (names w' = names unreadableWorld
          \/ exists name dskey e0,
              PutName name dskey (names unreadableWorld) = (None, names w')
              /\ GetPath name (names w') = (dskey, None)
              /\ GetDataset dskey (datasets w') = inr e0
              /\ e = Errorf ("error reading dataset: " ++ Error e0)).
Proof.
  split; [reflexivity |]. split; [exact Mem_laws |].
  eexists _, _, _.
  match goal with
  | |- ?run /\ _ => assert (Hrun : run) by reflexivity
  end.
  split; [exact Hrun |].
  exact (@InitDataset_error_binding types libs repo local jobs
           zeroDatasetRef _ unreadableWorld _ _ eq_refl Mem_laws Hrun).
Defined.

(** C4 fails: on a repository whose Datasets store cannot be read back,
    [InitDataset] returns an error, and the name [jobs], unbound before
    the call, is bound after it. *)
Lemma InitDataset_binding_left :
  exists e w',
    InitDataset local jobs zeroDatasetRef unreadableWorld
    = (Returned zeroDatasetRef (Some e), w')
    /\ GetPath "jobs" (names unreadableWorld) = ("", Some ErrNotFound)
    /\ snd (GetPath "jobs" (names w')) = None
    /\ names w' <> names unreadableWorld.
Proof.
  eexists _, _. split; [reflexivity |].
  split; [reflexivity |]. split; [reflexivity |]. discriminate.
Qed.



(** The error of the format detection comes second to the check of the
    name as well. *)
Example InitDataset_bad_name_first :
  InitDataset local (upload "0hno3s" "jobs" ["rank,title"]) zeroDatasetRef
              emptyWorld
  = (Returned zeroDatasetRef (Some (Errorf "invalid name: error: illegal name")),
     emptyWorld).
Proof. reflexivity. Qed.

Lemma InitDataset_returns_given_name_witness :
  dr_cli local = None /\ @NamestoreLaws types repo /\ ip_Name jobs = ""
  /\ exists ref w',
      InitDataset local jobs zeroDatasetRef emptyWorld = (Returned ref None, w')
      /\ ref_Name ref = ""
      /\ GetPath "jobs" (names w') = (ref_Path ref, None).
Proof.
  split; [reflexivity |]. split; [exact Mem_laws |]. split; [reflexivity |].
  eexists _, _.
  match goal with
  | |- ?run /\ _ => assert (Hrun : run) by reflexivity
  end.
  split; [exact Hrun |].
  destruct (@InitDataset_returns_given_name types libs repo local jobs
              zeroDatasetRef _ emptyWorld _ eq_refl Mem_laws Mem_extension
              Hrun eq_refl) as (Hname & _ & _ & Hget).
  split; [exact Hname | exact Hget].
Defined.



End Examples.

(** * Further properties of the code *)

(** ** Strings *)

Section Strings.

Lemma list_ascii_app (a b : string) :
  list_ascii_of_string (a ++ b)
  = (list_ascii_of_string a ++ list_ascii_of_string b)%list.
Proof. induction a as [| c a IH]; simpl; [reflexivity | now rewrite IH]. Qed.

Lemma string_of_list_app (l l' : list ascii) :
  string_of_list_ascii (l ++ l')
  = string_of_list_ascii l ++ string_of_list_ascii l'.
Proof. induction l as [| c l IH]; simpl; [reflexivity | now rewrite IH]. Qed.

Lemma rev_app (a b : string) : Go.rev (a ++ b) = Go.rev b ++ Go.rev a.
Proof.
  unfold Go.rev. rewrite list_ascii_app, rev_app_distr.
  apply string_of_list_app.
Qed.

Lemma prefix_app (p x : string) : String.prefix p (p ++ x) = true.
Proof.
  induction p as [| c p IH]; simpl; [destruct x; reflexivity |].
  destruct (ascii_dec c c); [exact IH | congruence].
Qed.

Lemma length_app (a b : string) :
  String.length (a ++ b) = (String.length a + String.length b)%nat.
Proof. induction a as [| c a IH]; simpl; [reflexivity | now rewrite IH]. Qed.

Lemma substring_app (a b : string) :
  String.substring 0 (String.length a) (a ++ b) = a.
Proof.
  induction a as [| c a IH]; simpl.
  - destruct b; reflexivity.
  - now rewrite IH.
Qed.

Lemma HasSuffix_app (s suffix : string) : Go.HasSuffix (s ++ suffix) suffix = true.
Proof. unfold Go.HasSuffix. rewrite rev_app. apply prefix_app. Qed.

(** [strings.TrimSuffix] takes off what was put on. *)
Lemma TrimSuffix_app (s suffix : string) : Go.TrimSuffix (s ++ suffix) suffix = s.
Proof.
  unfold Go.TrimSuffix. rewrite HasSuffix_app, length_app.
  replace (String.length s + String.length suffix - String.length suffix)%nat
    with (String.length s) by lia.
  apply substring_app.
Qed.

Lemma app_assoc_string (a b c : string) : (a ++ b) ++ c = a ++ (b ++ c).
Proof. induction a as [| x a IH]; simpl; [reflexivity | now rewrite IH]. Qed.

End Strings.

(** ** Pagination, continued *)

Section PaginationMore.
Import Params.

Lemma NewListParams_Limit_pos (o : string) (page pageSize : Z) :
  1 <= Limit (NewListParams o page pageSize).
Proof.
  unfold NewListParams. simpl.
  destruct (Z.leb_spec pageSize 0); unfold DefaultPageSize; lia.
Qed.

(** X1.  The limit of a [ListParams] built by [NewListParams] is at least
    1 whatever the page size asked for, so that [DatasetRequests.List]
    never replaces it by its own default of 25; and the size [Page] uses
    is at least 1 for every [ListParams], so that its division is
    defined. *)
Theorem NewListParams_limit_kept (o : string) (page pageSize : Z) :
  1 <= Limit (NewListParams o page pageSize)
  /\ ensureLimit (NewListParams o page pageSize) = NewListParams o page pageSize
  /\ (forall lp, 1 <= Page_size lp).
Proof.
  pose proof (NewListParams_Limit_pos o page pageSize) as Hpos.
  split; [exact Hpos |]. split.
  - unfold ensureLimit.
    destruct (Z.leb_spec (Limit (NewListParams o page pageSize)) 0);
      [lia | reflexivity].
  - intros lp. unfold Page_size.
    destruct (Z.leb_spec (Limit lp) 0); unfold DefaultPageSize; lia.
Qed.

(** X2.  Going from limit and offset to a page and back rounds the offset
    down to the start of its page: for a limit of at least 1 and an
    offset from 0 to below the largest [int], [NewListParams] applied to
    the page number and size of [Page] gives the same limit and the
    offset less its remainder by the limit; the offset comes back
    unchanged exactly when it is a multiple of the limit. *)
Theorem Page_NewListParams_rounds (o : string) (lp : ListParams) :
  Go.is_int (Limit lp) -> 1 <= Limit lp ->
  0 <= Offset lp < Go.MaxInt ->
  let lp' := NewListParams o (Page_number lp) (Page_size lp) in
  Limit lp' = Limit lp
  /\ Offset lp' = Offset lp - Offset lp mod Limit lp
  /\ (Offset lp' = Offset lp <-> Offset lp mod Limit lp = 0).
Proof.
  intros Hlim Hpos Hoff lp'.
  assert (Hsize : Page_size lp = Limit lp) by (apply Page_size_pos; lia).
  assert (Hq : Z.quot (Offset lp) (Limit lp) = Offset lp / Limit lp)
    by (apply Z.quot_div_nonneg; lia).
  assert (Hdiv : 0 <= Offset lp / Limit lp <= Offset lp).
  { split; [apply Z.div_pos; lia |].
    apply Z.div_le_upper_bound; [lia |]. nia. }
  assert (Hnum : Page_number lp = Offset lp / Limit lp + 1).
  { unfold Page_number, Go.add, Go.quo. rewrite Hsize, Hq.
    rewrite (wrap_small (z := Offset lp / Limit lp)).
    - apply wrap_small. unfold Go.is_int, Go.MinInt, Go.MaxInt in *. lia.
    - unfold Go.is_int, Go.MinInt, Go.MaxInt in *. lia. }
  assert (Hmul : (Offset lp / Limit lp) * Limit lp
                 = Offset lp - Offset lp mod Limit lp).
  { pose proof (Z.div_mod (Offset lp) (Limit lp) ltac:(lia)). lia. }
  assert (Hmod : 0 <= Offset lp mod Limit lp < Limit lp)
    by (apply Z.mod_pos_bound; lia).
  assert (Hoff' : Offset lp' = Offset lp - Offset lp mod Limit lp).
  { subst lp'. unfold NewListParams. simpl. rewrite Hnum, Hsize.
    destruct (Z.ltb_spec (Offset lp / Limit lp + 1) 1); [lia |].
    destruct (Z.leb_spec (Limit lp) 0); [lia |].
    unfold Go.mul, Go.sub.
    replace (Offset lp / Limit lp + 1 - 1) with (Offset lp / Limit lp) by lia.
    rewrite (wrap_small (z := Offset lp / Limit lp)).
    - rewrite Hmul. apply wrap_small.
      unfold Go.is_int, Go.MinInt, Go.MaxInt in *. lia.
    - unfold Go.is_int, Go.MinInt, Go.MaxInt in *. lia. }
  split; [| split].
  - subst lp'. unfold NewListParams. simpl. rewrite Hsize.
    destruct (Z.leb_spec (Limit lp) 0); [lia | reflexivity].
  - exact Hoff'.
  - rewrite Hoff'. lia.
Qed.

Lemma Page_NewListParams_rounds_witness :
  Go.is_int 10 /\ 1 <= 10 /\ 0 <= 25 < Go.MaxInt
  /\ Offset (NewListParams "" (Page_number (mkListParams "" 10 25))
                           (Page_size (mkListParams "" 10 25)))
     = 25 - 25 mod 10.
Proof.
  assert (H10 : Go.is_int 10) by (unfold Go.is_int, Go.MinInt, Go.MaxInt; lia).
  assert (H25 : 0 <= 25 < Go.MaxInt) by (unfold Go.MaxInt; lia).
  split; [exact H10 |]. split; [lia |]. split; [exact H25 |].
  exact (proj1 (proj2 (@Page_NewListParams_rounds "" (mkListParams "" 10 25)
                         H10 ltac:(simpl; lia) H25))).
Defined.

(** X3.  [ListParamsFromRequest] never hands on the [orderBy] of the
    request: the result has an empty [OrderBy] and a limit of at least 1,
    and when neither [page] nor [pageSize] reads as a number it is the
    first page of [DefaultPageSize] entries. *)
Theorem ListParamsFromRequest_defaults (Request : Type)
        (ReqParamInt : string -> Request -> Z * option error)
        (FormValue : Request -> string -> string) (r : Request) :
  OrderBy (ListParamsFromRequest ReqParamInt FormValue r) = ""
  /\ 1 <= Limit (ListParamsFromRequest ReqParamInt FormValue r)
  /\ (snd (ReqParamInt "page" r) <> None ->
      snd (ReqParamInt "pageSize" r) <> None ->
      ListParamsFromRequest ReqParamInt FormValue r
      = {| OrderBy := ""; Limit := DefaultPageSize; Offset := 0 |})
  /\ (snd (ReqParamInt "page" r) <> None ->
      Offset (ListParamsFromRequest ReqParamInt FormValue r) = 0).
Proof.
  unfold ListParamsFromRequest.
  split; [reflexivity |]. split; [apply NewListParams_Limit_pos |]. split.
  - intros Hp Hs.
    destruct (snd (ReqParamInt "page" r)); [| congruence].
    destruct (snd (ReqParamInt "pageSize" r)); [| congruence].
    reflexivity.
  - intros Hp.
    destruct (snd (ReqParamInt "page" r)); [| congruence].
    reflexivity.
Qed.

End PaginationMore.

(** ** The dataset handlers, continued *)

Section HandlersMore.
Context {T : Types} {L : Libs} {B : Backend}.

(** X4.  The path [Update] writes to [Previous] for a prior path made of
    a root and the package-file name is the key of the root; a prior
    path that does not end with the package-file name is written as it
    is. *)
Theorem Update_link_packaged (root : string) :
  Update_link (root ++ "/" ++ PackageFileDataset) = NewKey root
  /\ (forall prev, Go.HasSuffix (Key_String prev) PackageFileDataset = false ->
                   Update_link prev = prev).
Proof.
  split.
  - unfold Update_link, Key_String.
    replace (Go.HasSuffix (root ++ "/" ++ PackageFileDataset) PackageFileDataset)
      with true.
    + now rewrite TrimSuffix_app.
    + symmetry. rewrite <- app_assoc_string. apply HasSuffix_app.
  - intros prev H. unfold Update_link. rewrite H. reflexivity.
Qed.

Lemma Hydrated_same refs fs l fs' :
  Hydrated refs fs (inl l) fs' ->
  map ref_Name l = map ref_Name refs
  /\ map ref_Path l = map ref_Path refs
  /\ length l = length refs
  /\ Forall (fun ref => ref_Dataset ref <> None) l.
Proof.
  intros H. apply Hydrated_bodies in H.
  induction H as [| ref ref' refs l [ds Hds] _ IH]; simpl.
  - repeat split. constructor.
  - destruct IH as (Hn & Hp & Hl & Hf). subst ref'. simpl.
    rewrite Hn, Hp, Hl. repeat split. constructor; [discriminate | exact Hf].
Qed.


(** X6.  [Get] on a non-empty path does not look at the [Name] and [Hash]
    of its parameters: the name it returns is the one the Namestore has
    for the path; and [Get] writes neither to the Namestore nor to the
    Datasets store. *)
Theorem Get_ignores_hints (r : DatasetRequests) (p p' : GetDatasetParams)
        (res : DatasetRef) (w : World) :
  dr_cli r = None ->
  gp_Path p = gp_Path p' -> Key_String (gp_Path p) <> "" ->
  Get r p res w = Get r p' res w
  /\ (forall ref w', Get r p res w = (Returned ref None, w') ->
                     ref_Path ref = gp_Path p
                     /\ ref_Name ref = fst (GetName (gp_Path p) (names w))
                     /\ names w' = names w /\ datasets w' = datasets w).
Proof.
  intros Hcli Hpath Hne.
  unfold Get, Get_body. rewrite Hcli. rewrite <- Hpath.
  rewrite (proj2 (String.eqb_neq _ _) Hne).
  split; [reflexivity |].
  intros ref w' Hrun. unfold_steps.
  destruct (dr_repo r); [| discriminate Hrun]. simpl in Hrun.
  destruct (fst (LoadDataset (gp_Path p) (store w))); [| discriminate Hrun].
  simpl in Hrun. inversion Hrun; subst. simpl. repeat split.
Qed.

(** X7.  [Delete] with neither name nor path fails without touching
    anything.  When it succeeds, the flag is set, the binding it removed
    is the one of the name the Namestore has for the path (not the name
    the caller gave along with a path), and the Datasets store is as
    before; when it returns an error, the flag and the Namestore are as
    before. *)
Theorem Delete_spec (r : DatasetRequests) (p : DeleteParams) (ok : bool)
        (w : World) :
  dr_cli r = None -> NamestoreLaws B ->
  (dp_Name p = "" -> Key_String (dp_Path p) = "" ->
   Delete r p ok w
   = (p, (Returned ok (Some (Errorf "either name or path is required")), w)))
  /\ (forall p' ok' w',
         Delete r p ok w = (p', (Returned ok' None, w')) ->
         ok' = true
         /\ dp_Path p' = (if (Key_String (dp_Path p) =? "")%string
                          then fst (GetPath (dp_Name p) (names w))
                          else dp_Path p)
         /\ dp_Name p' = fst (GetName (dp_Path p') (names w))
         /\ snd (GetPath (dp_Name p') (names w')) = Some ErrNotFound
         /\ datasets w' = datasets w)
  /\ (forall p' ok' e w',
         Delete r p ok w = (p', (Returned ok' (Some e), w')) ->
         ok' = ok /\ names w' = names w /\ datasets w' = datasets w).
Proof.
  intros Hcli Laws. unfold Delete. rewrite Hcli. unfold Delete_local.
  split; [| split].
  - intros Hn Hp. rewrite Hn, Hp. reflexivity.
  - intros p' ok' w' Hrun.
    destruct ((dp_Name p =? "") && (Key_String (dp_Path p) =? ""))%string;
      [discriminate Hrun |].
    destruct (dr_repo r); [| discriminate Hrun].
    destruct (Key_String (dp_Path p) =? "")%string eqn:Hempty.
    + destruct (snd (GetPath (dp_Name p) (names w))); [discriminate Hrun |].
      simpl in Hrun.
      destruct (snd (GetName (fst (GetPath (dp_Name p) (names w))) (names w)));
        [discriminate Hrun |].
      destruct (match Unpin with
                | Some unpin => _
                | None => _
                end) as [[e |] fs]; [discriminate Hrun |].
      simpl in Hrun.
      destruct (DeleteName _ (names w)) as [[e |] ns] eqn:Hdel;
        [discriminate Hrun |].
      inversion Hrun; subst; clear Hrun. simpl.
      repeat split. eapply DeleteName_GetPath; eauto.
    + simpl in Hrun.
      destruct (snd (GetName (dp_Path p) (names w))); [discriminate Hrun |].
      destruct (match Unpin with
                | Some unpin => _
                | None => _
                end) as [[e |] fs]; [discriminate Hrun |].
      simpl in Hrun.
      destruct (DeleteName _ (names w)) as [[e |] ns] eqn:Hdel;
        [discriminate Hrun |].
      inversion Hrun; subst; clear Hrun. simpl.
      repeat split. eapply DeleteName_GetPath; eauto.
  - intros p' ok' e w' Hrun.
    destruct ((dp_Name p =? "") && (Key_String (dp_Path p) =? ""))%string;
      [inversion Hrun; subst; repeat split |].
    destruct (dr_repo r); [| discriminate Hrun].
    destruct (Key_String (dp_Path p) =? "")%string eqn:Hempty.
    + destruct (snd (GetPath (dp_Name p) (names w)));
        [inversion Hrun; subst; repeat split |].
      simpl in Hrun.
      destruct (snd (GetName (fst (GetPath (dp_Name p) (names w))) (names w)));
        [inversion Hrun; subst; repeat split |].
      destruct (match Unpin with
                | Some unpin => _
                | None => _
                end) as [[e1 |] fs];
        [inversion Hrun; subst; repeat split |].
      simpl in Hrun.
      destruct (DeleteName _ (names w)) as [[e1 |] ns] eqn:Hdel;
        [| discriminate Hrun].
      inversion Hrun; subst; clear Hrun. simpl.
      repeat split. eapply DeleteName_failed; eauto.
    + simpl in Hrun.
      destruct (snd (GetName (dp_Path p) (names w)));
        [inversion Hrun; subst; repeat split |].
      destruct (match Unpin with
                | Some unpin => _
                | None => _
                end) as [[e1 |] fs];
        [inversion Hrun; subst; repeat split |].
      simpl in Hrun.
      destruct (DeleteName _ (names w)) as [[e1 |] ns] eqn:Hdel;
        [| discriminate Hrun].
      inversion Hrun; subst; clear Hrun. simpl.
      repeat split. eapply DeleteName_failed; eauto.
Qed.

(** X8.  [Rename] is not atomic.  When it returns an error the result
    and the Datasets store are as before, and either the Namestore is as
    before, or the current name has lost its binding: the new name could
    not be bound and is still free, or the new name is bound to the path
    and the error is that of loading the dataset. *)
Theorem Rename_failure (r : DatasetRequests) (p : RenameParams)
        (res ref : DatasetRef) (e : error) (w w' : World) :
  dr_cli r = None -> NamestoreLaws B ->
  Rename r p res w = (Returned ref (Some e), w') ->
  ref = res /\ datasets w' = datasets w
  /\ (names w' = names w
      \/ exists path,
          GetPath (rp_Current p) (names w) = (path, None)
          /\ snd (GetPath (rp_Current p) (names w')) = Some ErrNotFound
          /\ (snd (GetPath (rp_New p) (names w')) = Some ErrNotFound
              \/ (GetPath (rp_New p) (names w') = (path, None)
                  /\ fst (LoadDataset path (store w)) = inr e))).
Proof.
  intros Hcli Laws Hrun.
  unfold Rename in Hrun. rewrite Hcli in Hrun. unfold Rename_body in Hrun.
  unfold_steps.
  destruct (rp_Current p =? "")%string eqn:Hcur;
    [inversion Hrun; subst; auto |].
  destruct (ValidName (rp_New p)) eqn:Hval;
    [inversion Hrun; subst; auto |].
  simpl in Hrun.
  destruct (dr_repo r); [| discriminate Hrun]. simpl in Hrun.
  destruct (Rename_free (GetPath (rp_New p) (names w))) eqn:Hfree;
    [| inversion Hrun; subst; auto].
  apply Rename_free_spec in Hfree. simpl in Hrun.
  destruct (GetPath (rp_Current p) (names w)) as [path [e1 |]] eqn:Hget;
    [inversion Hrun; subst; auto |].
  simpl in Hrun.
  assert (Hne : rp_New p <> rp_Current p).
  { intros Heq. rewrite Heq, Hget in Hfree. discriminate Hfree. }
  destruct (DeleteName (rp_Current p) (names w)) as [[e1 |] ns1] eqn:Hdel.
  { simpl in Hrun. inversion Hrun; subst. simpl.
    split; [reflexivity |]. split; [reflexivity |]. left.
    eapply DeleteName_failed; eauto. }
  simpl in Hrun.
  destruct (PutName (rp_New p) path ns1) as [[e1 |] ns2] eqn:Hput.
  { simpl in Hrun. inversion Hrun; subst. simpl.
    split; [reflexivity |]. split; [reflexivity |]. right.
    exists path. split; [reflexivity |].
    assert (ns2 = ns1) by (eapply PutName_failed; eauto). subst ns2.
    split; [eapply DeleteName_GetPath; eauto |]. left.
    erewrite DeleteName_other by eauto. exact Hfree. }
  simpl in Hrun.
  destruct (LoadDataset path (store w)) as [[ds | e1] fs1] eqn:Hload;
    [discriminate Hrun |].
  simpl in Hrun. inversion Hrun; subst. simpl.
  split; [reflexivity |]. split; [reflexivity |]. right.
  exists path. split; [reflexivity |]. split.
  - erewrite PutName_other by eauto. eapply DeleteName_GetPath; eauto.
  - right. split; [eapply PutName_GetPath; eauto | rewrite Hload; reflexivity].
Qed.

Lemma Update_data_keeps p ds w s w' :
  Update_data p ds w = (s, w') ->
  names w' = names w /\ datasets w' = datasets w.
Proof.
  unfold Update_data. unfold_steps. intros H.
  repeat split_run H; inversion H; subst; split; reflexivity.
Qed.

Lemma Update_previous_pure p w s w' : Update_previous p w = (s, w') -> w' = w.
Proof.
  unfold Update_previous. unfold_steps. intros H.
  repeat split_run H; inversion H; subst; reflexivity.
Qed.

(** What a run of the body of [Update] does to the Namestore and to the
    Datasets store. *)
Lemma Update_body_stores r p w s w' :
  NamestoreLaws B ->
  Update_body r p w = (s, w') ->
  datasets w' = datasets w
  /\ forall e, s = Fail e ->
       names w' = names w
       \/ exists name dspath,
           name <> ""
           /\ DeleteName name (names w) = (None, names w')
           /\ snd (GetPath name (names w')) = Some ErrNotFound
           /\ fst (PutName name dspath (names w')) = Some e.
Proof.
  intros Laws H. unfold Update_body in H.
  unfold bind at 1 in H. unfold useRepo in H.
  destruct (dr_repo r);
    [| inversion H; subst; split; [reflexivity | discriminate]].
  simpl in H. unfold bind at 1 in H.
  destruct (Update_previous p w) as [[np | e1 | msg] w1] eqn:Hprev;
    pose proof (Update_previous_pure _ _ Hprev) as Hw1; subst w1;
    try (inversion H; subst; split; [reflexivity | intros; now left]).
  clear Hprev. unfold bind at 1 in H. unfold getDataset in H.
  unfold bind at 1 in H. unfold tryPtr in H.
  destruct (GetDataset (snd np) (datasets w)) as [prev | e1];
    [| inversion H; subst; split; [reflexivity | intros; now left]].
  unfold ret at 1 in H. unfold bind at 1 in H.
  destruct (Update_data p (Dataset_Assign zeroDataset [prev; up_Changes p]) w)
    as [[ds | e1 | msg] w2] eqn:Hdata;
    destruct (Update_data_keeps _ _ _ Hdata) as [Hn2 Hd2];
    try (inversion H; subst; split; [assumption | intros; now left]).
  clear Hdata. rewrite <- Hn2, <- Hd2. clear Hn2 Hd2.
  unfold Update_rebind in H. unfold_steps.
  destruct (validate_Dataset (setPrevious ds (Update_link (snd np))));
    [inversion H; subst; split; [reflexivity | intros; now left] |].
  simpl in H.
  destruct (snd (fst (SaveDataset _ true (store w2)))); simpl in H;
    [inversion H; subst; split; [reflexivity | intros; now left] |].
  destruct (negb (fst np =? "")%string) eqn:Hnamed; simpl in H;
    [| inversion H; subst; split; [reflexivity | intros; now left]].
  apply negb_true_iff, String.eqb_neq in Hnamed.
  destruct (DeleteName (fst np) (names w2)) as [[e1 |] ns1] eqn:Hdel;
    simpl in H.
  { inversion H; subst; simpl. split; [reflexivity |]. intros e0 _. left.
    eapply DeleteName_failed; eauto. }
  match type of H with
  | context [PutName ?n ?k ns1] =>
    destruct (PutName n k ns1) as [[e1 |] ns2] eqn:Hput; simpl in H
  end.
  - inversion H; subst; simpl. split; [reflexivity |].
    intros e0 He0. inversion He0; subst e0. right.
    assert (ns2 = ns1) by (eapply PutName_failed; eauto). subst ns2.
    eexists (fst np), _. split; [exact Hnamed |]. split; [exact Hdel |].
    split; [eapply DeleteName_GetPath; eauto |].
    rewrite Hput. reflexivity.
  - inversion H; subst; simpl. split; [reflexivity | discriminate].
Qed.

(** X9.  [Update] never writes to the Datasets store, whatever it
    returns.  When it returns an error the result is as before, and
    either the Namestore is as before too, or the name of the previous
    revision was deleted and could not be bound again, so that it is left
    without a binding. *)
Theorem Update_failure (r : DatasetRequests) (p : UpdateParams)
        (res : DatasetRef) (w : World) :
  dr_cli r = None -> NamestoreLaws B ->
  (forall c w', Update r p res w = (c, w') -> datasets w' = datasets w)
  /\ (forall ref e w',
         Update r p res w = (Returned ref (Some e), w') ->
         ref = res
         /\ (names w' = names w
             \/ exists name dspath,
                 name <> ""
                 /\ DeleteName name (names w) = (None, names w')
                 /\ snd (GetPath name (names w')) = Some ErrNotFound
                 /\ fst (PutName name dspath (names w')) = Some e)).
Proof.
  intros Hcli Laws. unfold Update. rewrite Hcli. unfold exec.
  destruct (Update_body r p w) as [s w1] eqn:Hbody.
  destruct (Update_body_stores _ _ _ Laws Hbody) as [Hd Hn].
  split.
  - intros c w' H. destruct s; inversion H; subst; exact Hd.
  - intros ref e w' H. destruct s; inversion H; subst.
    split; [reflexivity |]. now apply Hn.
Qed.


(** X11.  When [Update] is given new data and succeeds, the length
    written to the record is that of everything read from the stream,
    while the file handed to the store is built from the stream after it
    was read to its end, hence holds nothing; the record's [Data] is the
    key the store gave for that file. *)
Theorem Update_data_file (r : DatasetRequests) (p : UpdateParams)
        (rdr : Reader) (res ref : DatasetRef) (w w' : World) :
  dr_cli r = None -> up_Data p = Some rdr ->
  Update r p res w = (Returned ref None, w') ->
  exists ds path fs1,
    ref_Dataset ref = Some ds
    /\ readErr rdr = None
    /\ Put (NewMemfileBytes (up_DataFilename p) "") false (store w)
       = (path, None, fs1)
    /\ ds_Data ds = Key_String path
    /\ ds_Length ds = Go.len (content rdr).
Proof.
  intros Hcli Hdata Hrun.
  unfold Update in Hrun. rewrite Hcli in Hrun. unfold exec in Hrun.
  destruct (Update_body r p w) as [[ref1 | e1 | msg] w1] eqn:Hbody;
    inversion Hrun; subst; clear Hrun.
  unfold Update_body in Hbody.
  unfold bind at 1 in Hbody. unfold useRepo in Hbody.
  destruct (dr_repo r); [| discriminate Hbody].
  simpl in Hbody. unfold bind at 1 in Hbody.
  destruct (Update_previous p w) as [[np | e1 | msg] w1] eqn:Hprev;
    pose proof (Update_previous_pure _ _ Hprev) as Hw1; subst w1;
    try discriminate Hbody.
  clear Hprev. unfold Update_data, Update_rebind in Hbody.
  rewrite Hdata in Hbody. unfold_steps. unfold ReadAll in Hbody.
  simpl in Hbody.
  destruct (GetDataset (snd np) (datasets w)) as [prev | e1];
    [| discriminate Hbody].
  destruct (readErr rdr) eqn:Hread; [discriminate Hbody |].
  simpl in Hbody.
  destruct (Put (NewMemfileReader (up_DataFilename p) (drained rdr)) false
                (store w)) as [[path perr] fs1] eqn:Hput.
  simpl in Hbody. destruct perr; [discriminate Hbody |]. simpl in Hbody.
  repeat split_run Hbody.
  all: inversion Hbody; subst; clear Hbody; simpl.
  all: eexists _, path, fs1; repeat split; exact Hput.
Qed.

(** X12.  When a URL is given, [InitDataset] on a repository does not
    look at [Data], [DataFilename] or [MetadataFilename]: the data and
    the file name are those of the URL. *)
Theorem InitDataset_url_first (r : DatasetRequests) (p : InitDatasetParams)
        (res : DatasetRef) (w : World) :
  dr_cli r = None -> ip_URL p <> "" ->
  forall data dataFilename metadataFilename,
    InitDataset r p res w
    = InitDataset r {| ip_Name := ip_Name p; ip_URL := ip_URL p;
                       ip_DataFilename := dataFilename; ip_Data := data;
                       ip_MetadataFilename := metadataFilename;
                       ip_Metadata := ip_Metadata p |} res w.
Proof.
  intros Hcli Hurl data dataFilename metadataFilename.
  unfold InitDataset. rewrite Hcli.
  unfold InitDataset_body, InitDataset_source, InitDataset_name,
    withURL.
  cbn [ip_URL ip_Name ip_Data ip_DataFilename ip_Metadata].
  rewrite (proj2 (String.eqb_neq _ _) Hurl). cbn [negb]. reflexivity.
Qed.

Lemma InitDataset_source_stores p w s w' :
  InitDataset_source p w = (s, w') ->
  names w' = names w /\ datasets w' = datasets w /\ store w' = store w.
Proof.
  unfold InitDataset_source. unfold_steps. intros H.
  repeat split_run H; inversion H; subst; repeat split.
Qed.

(** X13.  When [InitDataset] succeeds without a metadata stream, the
    record it made has the bound name for title, no previous revision,
    the URL as download URL (with a weekly accrual periodicity when a URL
    was given), and for data the key of a file put in the store that was
    not in the repository before; that same record was saved in the store
    under the returned path and registered in the Datasets store under
    the same path. *)
Theorem InitDataset_record (r : DatasetRequests) (p : InitDatasetParams)
        (res ref : DatasetRef) (w w' : World) :
  dr_cli r = None -> ip_Metadata p = None ->
  InitDataset r p res w = (Returned ref None, w') ->
  exists ds file fs1,
    Put file false (store w) = (ds_Data ds, None, fs1)
    /\ fst (HasPath (ds_Data ds) (names w) (datasets w) fs1) = false
    /\ fst (SaveDataset ds true fs1) = (ref_Path ref, None)
    /\ store w' = snd (SaveDataset ds true fs1)
    /\ PutDataset (ref_Path ref) ds (datasets w) = (None, datasets w')
    /\ ds_Title ds = InitDataset_name p (InitDataset_filename p)
    /\ Key_String (ds_Previous ds) = ""
    /\ ds_DownloadURL ds = ip_URL p
    /\ ds_AccrualPeriodicity ds
       = (if (ip_URL p =? "")%string then "" else "R/P1W").
Proof.
  intros Hcli Hmeta Hrun.
  unfold InitDataset in Hrun. rewrite Hcli in Hrun. unfold exec in Hrun.
  destruct (InitDataset_body r p w) as [[ref1 | e1 | msg] w0] eqn:H;
    inversion Hrun; subst; clear Hrun.
  unfold InitDataset_body in H.
  unfold bind at 1 in H. unfold useRepo in H.
  destruct (dr_repo r); [| discriminate H]. simpl in H.
  unfold bind at 1 in H.
  destruct (InitDataset_source p w) as [[src | e | msg] w1] eqn:Hsrc;
    try discriminate H.
  destruct (InitDataset_source_stores _ _ Hsrc) as (Hn1 & Hd1 & Hs1).
  pose proof (InitDataset_source_filename _ _ Hsrc) as Hfile.
  rewrite Hfile, Hmeta in H. clear Hsrc Hfile.
  unfold_steps.
  rewrite <- Hn1, <- Hd1, <- Hs1. clear Hn1 Hd1 Hs1.
  assert (Htitle : forall t name datakey st,
             ds_Title (InitDataset_fill (withURL p zeroDataset) t name datakey st)
             = name).
  { intros. unfold withURL. destruct (negb (ip_URL p =? "")%string); reflexivity. }
  assert (Hprev : forall t name datakey st,
             ds_Previous (InitDataset_fill (withURL p zeroDataset) t name datakey st)
             = "").
  { intros. unfold withURL. destruct (negb (ip_URL p =? "")%string); reflexivity. }
  assert (Hurl : forall t name datakey st,
             ds_DownloadURL (InitDataset_fill (withURL p zeroDataset) t name datakey st)
             = ip_URL p).
  { intros. unfold withURL.
    destruct (ip_URL p =? "")%string eqn:E; simpl; [| reflexivity].
    apply String.eqb_eq in E. now rewrite E. }
  assert (Hacc : forall t name datakey st,
             ds_AccrualPeriodicity
               (InitDataset_fill (withURL p zeroDataset) t name datakey st)
             = (if (ip_URL p =? "")%string then "" else "R/P1W")).
  { intros. unfold withURL. destruct (ip_URL p =? "")%string; reflexivity. }
  repeat split_run H.
  all: inversion H; subst; clear H; simpl.
  all: match goal with
       | E : snd (fst (Put ?f false ?fs)) = None,
         S : snd (fst (SaveDataset ?ds true _)) = None |- _ =>
         exists ds, f, (snd (Put f false fs))
       end.
  all: split; [apply pair_fst, pair_snd; assumption |].
  all: split; [assumption |].
  all: split; [apply pair_snd; assumption |].
  all: split; [reflexivity |].
  all: split; [apply pair_fst; assumption |].
  all: split; [apply Htitle |].
  all: split; [apply Hprev |].
  all: split; [apply Hurl | apply Hacc].
Qed.

Lemma Log_loop_walk (fuel : nat) :
  forall limit path log fs out fs',
    Log_loop fuel limit path log fs = Some (Next out, fs') ->
    exists tail,
      out = (log ++ tail)%list
      /\ Linked path tail
      /\ (length tail <= fuel)%nat
      /\ (1 <= limit <= Go.MaxInt -> Z.of_nat (length tail) <= limit).
Proof.
  induction fuel as [| fuel IH]; intros limit path log fs out fs' H;
    [discriminate H |].
  simpl in H.
  destruct (LoadDataset path fs) as [[ds | e] fs1]; [| discriminate H].
  destruct ((Go.sub limit 1 =? 0)
            || (Key_String (ds_Previous ds) =? "")%string) eqn:Hstop.
  - inversion H; subst. exists [refAt path ds].
    split; [reflexivity |]. split; [exists ds; auto |].
    split; simpl; lia.
  - apply orb_false_iff in Hstop. destruct Hstop as [Hlim Hprev].
    apply Z.eqb_neq in Hlim. apply String.eqb_neq in Hprev.
    destruct (IH _ _ _ _ _ _ H) as (tail & Hout & Hlinked & Hfuel & Hlen).
    exists (refAt path ds :: tail).
    split; [rewrite Hout, <- app_assoc; reflexivity |].
    split; [| split].
    + exists ds. split; [reflexivity |].
      destruct tail as [| ref tail]; [destruct Hlinked |].
      split; assumption.
    + simpl. lia.
    + intros Hpos.
      assert (Hsub : Go.sub limit 1 = limit - 1).
      { unfold Go.sub. apply wrap_small.
        unfold Go.is_int, Go.MinInt, Go.MaxInt in *. lia. }
      rewrite Hsub in Hlim, Hlen.
      simpl length. unfold Go.MaxInt in *. lia.
Qed.

Lemma Linked_refs path l :
  Linked path l ->
  Forall (fun ref => ref_Name ref = "" /\ ref_Dataset ref <> None) l.
Proof.
  revert path. induction l as [| ref rest IH]; intros path H;
    [constructor |].
  destruct H as (ds & Href & Hrest). constructor.
  - subst ref. split; [reflexivity | discriminate].
  - destruct rest as [| ref' rest]; [constructor |].
    destruct Hrest as [_ Hrest]. exact (IH _ Hrest).
Qed.


End HandlersMore.

(** ** Adding a dataset (DatasetRequests.AddDataset) *)

Section AddingMore.
Context {T : Types} {L : Libs} {B : Backend}.
Variable asIpfs : option IpfsFilestore.

Lemma TrimSuffix_none (s suffix : string) :
  Go.HasSuffix s suffix = false -> Go.TrimSuffix s suffix = s.
Proof. intros H. unfold Go.TrimSuffix. rewrite H. reflexivity. Qed.

(** X15.  [AddDataset] takes the hash of a dataset with or without the
    package-file name at its end: both forms give the same key to fetch
    and pin, the same path to bind, and the same outcome. *)
Theorem AddDataset_hash_forms (r : DatasetRequests) (name root : string)
        (res : DatasetRef) (w : World) :
  dr_cli r = None ->
  Go.HasSuffix root ("/" ++ PackageFileDataset) = false ->
  AddDataset_key (mkAddParams name (root ++ "/" ++ PackageFileDataset))
  = NewKey root
  /\ AddDataset asIpfs r (mkAddParams name (root ++ "/" ++ PackageFileDataset))
                res w
     = AddDataset asIpfs r (mkAddParams name root) res w.
Proof.
  intros Hcli Hplain.
  assert (Hkey : forall n,
             AddDataset_key (mkAddParams n (root ++ "/" ++ PackageFileDataset))
             = AddDataset_key (mkAddParams n root)).
  { intros n. unfold AddDataset_key. simpl ap_Hash.
    rewrite TrimSuffix_app, (TrimSuffix_none _ _ Hplain). reflexivity. }
  split.
  - rewrite Hkey. unfold AddDataset_key. simpl ap_Hash.
    now rewrite (TrimSuffix_none _ _ Hplain).
  - unfold AddDataset. rewrite Hcli. unfold AddDataset_body, AddDataset_path.
    rewrite Hkey. reflexivity.
Qed.

(** X16.  [AddDataset] on a store that is not an IPFS store fails and
    changes nothing.  When it succeeds, the name given is bound to the
    path made of the key and the package-file name, and the dataset
    loaded from that path is returned under that name.  When it returns
    an error the result is as before and either the Namestore is as
    before, or the name has been bound and stays bound although the
    dataset could not be loaded; it never writes to the Datasets
    store. *)
Theorem AddDataset_binding (r : DatasetRequests) (p : AddParams)
        (res : DatasetRef) (w : World) :
  dr_cli r = None -> dr_repo r = Some LocalRepo -> NamestoreLaws B ->
  (asIpfs = None ->
   AddDataset asIpfs r p res w
   = (Returned res
        (Some (Errorf "can only add datasets when running an IPFS filestore")),
      w))
  /\ (forall ref w',
         AddDataset asIpfs r p res w = (Returned ref None, w') ->
         exists ds,
           ref = {| ref_Name := ap_Name p; ref_Path := AddDataset_path p;
                    ref_Dataset := Some ds |}
           /\ GetPath (ap_Name p) (names w') = (AddDataset_path p, None)
           /\ datasets w' = datasets w)
  /\ (forall ref e w',
         AddDataset asIpfs r p res w = (Returned ref (Some e), w') ->
         ref = res /\ datasets w' = datasets w
         /\ (names w' = names w
             \/ (PutName (ap_Name p) (AddDataset_path p) (names w)
                 = (None, names w')
                 /\ GetPath (ap_Name p) (names w') = (AddDataset_path p, None)
                 /\ e = Errorf ("error loading newly saved dataset path: "
                                ++ Key_String (AddDataset_path p))))).
Proof.
  intros Hcli Hrepo Laws. unfold AddDataset. rewrite Hcli.
  unfold AddDataset_body. rewrite Hrepo.
  split; [| split].
  - intros Hnone. rewrite Hnone. reflexivity.
  - intros ref w' Hrun. destruct asIpfs as [fs |]; [| discriminate Hrun].
    unfold fetch, pin in Hrun. unfold_steps. simpl in Hrun.
    destruct (fst (Fetch fs (AddDataset_key p) (store w)));
      [discriminate Hrun |].
    simpl in Hrun.
    destruct (fst (Pin fs (AddDataset_key p) true _));
      [discriminate Hrun |].
    simpl in Hrun.
    destruct (PutName (ap_Name p) (AddDataset_path p) (names w))
      as [[e |] ns1] eqn:Hput; [discriminate Hrun |].
    simpl in Hrun.
    destruct (fst (LoadDataset (AddDataset_path p) _)) as [ds | e];
      [| discriminate Hrun].
    simpl in Hrun. inversion Hrun; subst; clear Hrun. simpl.
    exists ds. split; [reflexivity |].
    split; [eapply PutName_GetPath; eauto | reflexivity].
  - intros ref e w' Hrun.
    destruct asIpfs as [fs |];
      [| inversion Hrun; subst; auto].
    unfold fetch, pin in Hrun. unfold_steps. simpl in Hrun.
    destruct (fst (Fetch fs (AddDataset_key p) (store w)));
      [inversion Hrun; subst; auto |].
    simpl in Hrun.
    destruct (fst (Pin fs (AddDataset_key p) true _));
      [inversion Hrun; subst; auto |].
    simpl in Hrun.
    destruct (PutName (ap_Name p) (AddDataset_path p) (names w))
      as [[e1 |] ns1] eqn:Hput.
    { simpl in Hrun. inversion Hrun; subst. simpl.
      split; [reflexivity |]. split; [reflexivity |]. left.
      eapply PutName_failed; eauto. }
    simpl in Hrun.
    destruct (fst (LoadDataset (AddDataset_path p) _)) as [ds | e1];
      [discriminate Hrun |].
    simpl in Hrun. inversion Hrun; subst; clear Hrun. simpl.
    split; [reflexivity |]. split; [reflexivity |]. right.
    split; [reflexivity |].
    split; [eapply PutName_GetPath; eauto | reflexivity].
Qed.

End AddingMore.

(** ** Listing peers (PeerRequests.List) *)

Section PeersMore.
Variable Node : Type.
Variable Repo_Profile : Node -> Profile * option error.
Variable QueryPeers : Node -> list Profile * option error.
Variable PeerClient : Type.
Variable Call : PeerClient -> string -> Params.ListParams -> list Profile
                -> list Profile * option error.
Variable maxSliceLen : Z.

Lemma In_firstn {A : Type} (n : nat) (l : list A) (x : A) :
  In x (firstn n l) -> In x l.
Proof.
  intros H. rewrite <- (firstn_skipn n l). apply in_or_app. now left.
Qed.

(** The peers other than [user], in the order of the query. *)
Lemma PeerRequests_List_range_spec (user : Profile) (ps : list Profile) :
  forall limit i,
    0 <= i <= limit -> limit <= Go.MaxInt ->
    PeerRequests_List_range limit i user ps
    = firstn (Z.to_nat (limit - i))
             (filter (fun q => negb (pf_ID q =? pf_ID user)%string) ps).
Proof.
  induction ps as [| peer rest IH]; intros limit i Hi Hmax; simpl.
  - now rewrite firstn_nil.
  - destruct (limit <=? i) eqn:Hfull.
    + apply Z.leb_le in Hfull. replace (limit - i) with 0 by lia.
      reflexivity.
    + apply Z.leb_gt in Hfull.
      destruct (pf_ID peer =? pf_ID user)%string; simpl.
      * apply IH; lia.
      * assert (Hadd : Go.add i 1 = i + 1).
        { unfold Go.add. apply wrap_small.
          unfold Go.is_int, Go.MinInt, Go.MaxInt in *. lia. }
        rewrite Hadd, IH by lia.
        replace (Z.to_nat (limit - i)) with (S (Z.to_nat (limit - (i + 1))))
          by lia.
        reflexivity.
Qed.

(** X17.  On a node, [PeerRequests.List] returns the peers the query
    gives, without the node's own profile, in the order of the query and
    cut at [Limit]; [Offset] and [OrderBy] play no part.  No default is
    put in place of a [Limit] of zero, which gives the empty list, and a
    negative [Limit] makes the call panic before anything is read. *)
Theorem PeerRequests_List_selection (d : PeerRequests Node PeerClient)
        (p : Params.ListParams) (res : list Profile) (n : Node) :
  pr_cli d = None -> pr_qriNode d = Some n -> maxSliceLen <= Go.MaxInt ->
  (Params.Limit p < 0 ->
   PeerRequests_List Repo_Profile QueryPeers Call maxSliceLen d p res
   = Panicked makesliceRange)
  /\ (forall user ps,
         0 <= Params.Limit p <= maxSliceLen ->
         Repo_Profile n = (user, None) -> QueryPeers n = (ps, None) ->
         let others :=
           filter (fun q => negb (pf_ID q =? pf_ID user)%string) ps in
         PeerRequests_List Repo_Profile QueryPeers Call maxSliceLen d p res
         = Returned (firstn (Z.to_nat (Params.Limit p)) others) None
         /\ (Params.Limit p = 0 ->
             PeerRequests_List Repo_Profile QueryPeers Call maxSliceLen d p res
             = Returned [] None)
         /\ Forall (fun q => pf_ID q <> pf_ID user)
                   (firstn (Z.to_nat (Params.Limit p)) others)).
Proof.
  intros Hcli Hnode Hmax. unfold PeerRequests_List. rewrite Hcli, Hnode.
  split.
  - intros Hneg. apply Z.ltb_lt in Hneg. rewrite Hneg. reflexivity.
  - intros user ps Hlim Hprofile Hquery.
    set (others := filter (fun q => negb (pf_ID q =? pf_ID user)%string) ps).
    assert (Hrun : PeerRequests_List_range (Params.Limit p) 0 user ps
                   = firstn (Z.to_nat (Params.Limit p)) others).
    { rewrite PeerRequests_List_range_spec by lia.
      now rewrite Z.sub_0_r. }
    replace (Params.Limit p <? 0) with false by (symmetry; apply Z.ltb_ge; lia).
    replace (maxSliceLen <? Params.Limit p) with false
      by (symmetry; apply Z.ltb_ge; lia).
    simpl. rewrite Hprofile, Hquery, Hrun.
    split; [reflexivity |]. split.
    + intros Hzero. rewrite Hzero. reflexivity.
    + apply Forall_forall. intros q Hin.
      apply In_firstn in Hin.
      apply filter_In in Hin. destruct Hin as [_ Hq].
      apply negb_true_iff, String.eqb_neq in Hq. exact Hq.
Qed.

End PeersMore.

(** ** Examples for the further properties *)

Section ExamplesMore.
Import Mem MemMore.
#[local] Existing Instance types.
#[local] Existing Instance libs.
#[local] Existing Instance repo.


Lemma Get_ignores_hints_witness :
  dr_cli local = None
  /\ Key_String path3 <> ""
  /\ Get local (mkGetDatasetParams path3 "cats" "QmCats") zeroDatasetRef jobsWorld
     = Get local (mkGetDatasetParams path3 "" "") zeroDatasetRef jobsWorld.
Proof.
  split; [reflexivity |]. split; [discriminate |].
  exact (proj1 (@Get_ignores_hints types repo local
                  (mkGetDatasetParams path3 "cats" "QmCats")
                  (mkGetDatasetParams path3 "" "") zeroDatasetRef jobsWorld
                  eq_refl eq_refl ltac:(discriminate))).
Defined.

Lemma Delete_spec_witness :
  dr_cli local = None /\ @NamestoreLaws types repo
  /\ exists p' w',
      Delete local (mkDeleteParams "" "jobs") false jobsWorld
      = (p', (Returned true None, w'))
      /\ dp_Path p' = path3
      /\ snd (GetPath "jobs" (names w')) = Some ErrNotFound.
Proof.
  split; [reflexivity |]. split; [exact Mem_laws |].
  eexists _, _.
  match goal with
  | |- ?run /\ _ => assert (Hrun : run) by reflexivity
  end.
  split; [exact Hrun |].
  destruct (@Delete_spec types libs repo local (mkDeleteParams "" "jobs")
              false jobsWorld eq_refl Mem_laws) as (_ & Hok & _).
  destruct (Hok _ _ _ Hrun) as (_ & Hpath & _ & Hgone & _).
  split; [exact Hpath | exact Hgone].
Defined.

Lemma Rename_failure_witness :
  dr_cli local = None /\ @NamestoreLaws types repo
  /\ exists e w',
      Rename local (mkRenameParams "jobs" "work") zeroDatasetRef orphanWorld
      = (Returned zeroDatasetRef (Some e), w')
      /\ (names w' = names orphanWorld
          \/ exists path,
              GetPath "jobs" (names orphanWorld) = (path, None)
              /\ snd (GetPath "jobs" (names w')) = Some ErrNotFound
              /\ (snd (GetPath "work" (names w')) = Some ErrNotFound
                  \/ (GetPath "work" (names w') = (path, None)
                      /\ fst (LoadDataset path (store orphanWorld)) = inr e))).
Proof.
  split; [reflexivity |]. split; [exact Mem_laws |].
  eexists _, _.
  match goal with
  | |- ?run /\ _ => assert (Hrun : run) by reflexivity
  end.
  split; [exact Hrun |].
  exact (proj2 (proj2 (@Rename_failure types libs repo local
                         (mkRenameParams "jobs" "work") zeroDatasetRef _ _
                         orphanWorld _ eq_refl Mem_laws Hrun))).
Defined.

Lemma Update_failure_witness :
  dr_cli local = None /\ @NamestoreLaws types repo
  /\ exists c w',
      Update local retitle zeroDatasetRef jobsWorld = (c, w')
      /\ datasets w' = datasets jobsWorld.
Proof.
  split; [reflexivity |]. split; [exact Mem_laws |].
  destruct (Update local retitle zeroDatasetRef jobsWorld) as [c w'] eqn:Hrun.
  exists c, w'. split; [reflexivity |].
  exact (proj1 (@Update_failure types libs repo local retitle zeroDatasetRef
                  jobsWorld eq_refl Mem_laws) c w' Hrun).
Defined.


Lemma Update_data_file_witness :
  dr_cli local = None
  /\ up_Data redata = Some {| content := "rank,title"; readErr := None |}
  /\ exists ref w' ds path,
      Update local redata zeroDatasetRef jobsWorld = (Returned ref None, w')
      /\ ref_Dataset ref = Some ds
      /\ fst (fst (Put (NewMemfileBytes "jobs.csv" "") false (store jobsWorld)))
         = path
      /\ ds_Data ds = Key_String path
      /\ ds_Length ds = 10.
Proof.
  split; [reflexivity |]. split; [reflexivity |].
  assert (Hrun : exists ref w',
             Update local redata zeroDatasetRef jobsWorld
             = (Returned ref None, w'))
    by (eexists _, _; reflexivity).
  destruct Hrun as (ref & w' & Hrun).
  destruct (@Update_data_file types libs repo local redata _ zeroDatasetRef
              ref jobsWorld w' eq_refl eq_refl Hrun)
    as (ds & path & fs1 & Hds & _ & Hput & Hdata & Hlen).
  exists ref, w', ds, path. split; [exact Hrun |]. split; [exact Hds |].
  split; [exact (f_equal (fun t => fst (fst t)) Hput) |].
  split; [exact Hdata | exact Hlen].
Defined.

Lemma InitDataset_url_first_witness :
  dr_cli local = None /\ ip_URL fromURL <> ""
  /\ InitDataset local fromURL zeroDatasetRef emptyWorld
     = InitDataset local
         {| ip_Name := "jobs"; ip_URL := "http://example.com/jobs.csv";
            ip_DataFilename := "other.json";
            ip_Data := Some {| content := "[]"; readErr := None |};
            ip_MetadataFilename := "meta.json"; ip_Metadata := None |}
         zeroDatasetRef emptyWorld.
Proof.
  split; [reflexivity |]. split; [discriminate |].
  exact (@InitDataset_url_first types libs repo local fromURL zeroDatasetRef
           emptyWorld eq_refl ltac:(discriminate)
           (Some {| content := "[]"; readErr := None |})
           "other.json" "meta.json").
Defined.

Lemma InitDataset_record_witness :
  dr_cli local = None /\ ip_Metadata jobs = None
  /\ exists ref w' ds,
      InitDataset local jobs zeroDatasetRef emptyWorld = (Returned ref None, w')
      /\ PutDataset (ref_Path ref) ds (datasets emptyWorld) = (None, datasets w')
      /\ ds_Title ds = "jobs"
      /\ Key_String (ds_Previous ds) = "".
Proof.
  split; [reflexivity |]. split; [reflexivity |].
  assert (Hrun : exists ref w',
             InitDataset local jobs zeroDatasetRef emptyWorld
             = (Returned ref None, w'))
    by (eexists _, _; reflexivity).
  destruct Hrun as (ref & w' & Hrun).
  destruct (@InitDataset_record types libs repo local jobs zeroDatasetRef
              ref emptyWorld w' eq_refl eq_refl Hrun)
    as (ds & file & fs1 & _ & _ & _ & _ & Hput & Htitle & Hprev & _).
  exists ref, w', ds. split; [exact Hrun |]. split; [exact Hput |].
  split; [exact Htitle | exact Hprev].
Defined.


Lemma AddDataset_hash_forms_witness :
  dr_cli local = None
  /\ Go.HasSuffix "/ipfs/QmRev3" ("/" ++ PackageFileDataset) = false
  /\ AddDataset (Some ipfs) local
                (mkAddParams "copy" "/ipfs/QmRev3/dataset.json")
                zeroDatasetRef jobsWorld
     = AddDataset (Some ipfs) local (mkAddParams "copy" "/ipfs/QmRev3")
                  zeroDatasetRef jobsWorld.
Proof.
  split; [reflexivity |]. split; [reflexivity |].
  exact (proj2 (@AddDataset_hash_forms types libs repo (Some ipfs) local
                  "copy" "/ipfs/QmRev3" zeroDatasetRef jobsWorld
                  eq_refl eq_refl)).
Defined.

Lemma AddDataset_binding_witness :
  dr_cli local = None /\ dr_repo local = Some LocalRepo
  /\ @NamestoreLaws types repo
  /\ exists ref w' ds,
      AddDataset (Some ipfs) local (mkAddParams "copy" "/ipfs/QmRev3")
                 zeroDatasetRef jobsWorld = (Returned ref None, w')
      /\ ref = {| ref_Name := "copy"; ref_Path := path3;
                  ref_Dataset := Some ds |}
      /\ GetPath "copy" (names w') = (path3, None).
Proof.
  split; [reflexivity |]. split; [reflexivity |]. split; [exact Mem_laws |].
  assert (Hrun : exists ref w',
             AddDataset (Some ipfs) local (mkAddParams "copy" "/ipfs/QmRev3")
                        zeroDatasetRef jobsWorld = (Returned ref None, w'))
    by (eexists _, _; reflexivity).
  destruct Hrun as (ref & w' & Hrun).
  destruct (@AddDataset_binding types libs repo (Some ipfs) local
              (mkAddParams "copy" "/ipfs/QmRev3") zeroDatasetRef jobsWorld
              eq_refl eq_refl Mem_laws) as (_ & Hok & _).
  destruct (Hok ref w' Hrun) as (ds & Href & Hget & _).
  exists ref, w', ds. split; [exact Hrun |].
  split; [exact Href | exact Hget].
Defined.

Lemma PeerRequests_List_selection_witness :
  pr_cli node = None /\ pr_qriNode node = Some tt /\ 1000 <= Go.MaxInt
  /\ PeerRequests_List (fun _ => (me, None))
                       (fun _ => ([peerA; me; peerB; peerC], None))
                       (fun _ _ _ r => (r, None)) 1000 node
                       (Params.mkListParams "created" 2 7) []
     = Returned [peerA; peerB] None.
Proof.
  split; [reflexivity |]. split; [reflexivity |].
  assert (Hmax : 1000 <= Go.MaxInt) by (unfold Go.MaxInt; lia).
  split; [exact Hmax |].
  destruct (@PeerRequests_List_selection unit (fun _ => (me, None))
              (fun _ => ([peerA; me; peerB; peerC], None)) unit
              (fun _ _ _ r => (r, None)) 1000 node
              (Params.mkListParams "created" 2 7) [] tt eq_refl eq_refl Hmax)
    as [_ Hsel].
  exact (proj1 (Hsel me [peerA; me; peerB; peerC]
                     ltac:(simpl; lia) eq_refl eq_refl)).
Defined.

End ExamplesMore.
